(** * FloodPilot: the DIN 1986-100 assessment engine

    A shallow embedding of [services/din1986Engine.ts] and of the threshold
    indicator of [components/CoPilotPage.tsx].

    JavaScript numbers are IEEE 754 binary64 values; they are modelled by
    Rocq's primitive [float], whose operations are the binary64 ones, so
    every definition below evaluates as the script does, roundings and NaN
    included.  The helpers imported from [utils/hydrology] and
    [ml/pinnModel] are variables of the section that holds the engine. *)

From Stdlib Require Import Floats ZArith QArith Lia Lqa Bool List String DecimalString.
Import ListNotations.

Set Warnings "-inexact-float".

Local Open Scope float_scope.

(** ** JavaScript numbers *)

Definition number : Type := float.

Module JS.

(** The relational operators [a > b], [a >= b] and [a < b]; each is false
    as soon as one side is NaN. *)
Definition gt (a b : number) : bool := b <? a.
Definition ge (a b : number) : bool := b <=? a.
Definition lt (a b : number) : bool := a <? b.

(** [-0] and [+0]: both compare equal to 0, the sign tells them apart. *)
Definition is_neg_zero (a : number) : bool := is_zero a && get_sign a.
Definition is_pos_zero (a : number) : bool := is_zero a && negb (get_sign a).

(** [Math.max] on two arguments, after ECMAScript: NaN if either is NaN;
    the highest so far is the first argument, replaced by the second when
    that is +0 against -0 or when it is greater. *)
Definition Math_max (a b : number) : number :=
  if is_nan a || is_nan b then nan
  else if is_pos_zero b && is_neg_zero a then b
  else if a <? b then b
  else a.

Definition Math_sqrt (a : number) : number := sqrt a.

End JS.

(** ** Types *)

Inductive Bodenart : Type := GW | GI | SE | SU | TL | TM.

Inductive SCSGroup : Type := SCS_A | SCS_B | SCS_C | SCS_D.

Inductive Bemessungsregen : Type := T30 | T100.

Inductive NachweisStatus : Type :=
  | BESTANDEN
  | NICHT_BESTANDEN
  | PRUEFUNG_ERFORDERLICH.

Record DIN1986Input : Type := {
  projectName : string;
  grundstuecksflaeche : number;
  versiegelteFlaeche : number;
  bodenart : Bodenart;
  gelaendeneigung : number;
  manningN : number;
  fliesslaenge : number;
  latitude : number;
  longitude : number
}.

(** [{ ...prev, [field]: value }], the update [handleChange] of the form
    makes, for the fields the properties below vary. *)
Definition set_versiegelteFlaeche (value : number) (prev : DIN1986Input) : DIN1986Input := {|
  projectName := projectName prev;
  grundstuecksflaeche := grundstuecksflaeche prev;
  versiegelteFlaeche := value;
  bodenart := bodenart prev;
  gelaendeneigung := gelaendeneigung prev;
  manningN := manningN prev;
  fliesslaenge := fliesslaenge prev;
  latitude := latitude prev;
  longitude := longitude prev
|}.

Definition set_gelaendeneigung (value : number) (prev : DIN1986Input) : DIN1986Input := {|
  projectName := projectName prev;
  grundstuecksflaeche := grundstuecksflaeche prev;
  versiegelteFlaeche := versiegelteFlaeche prev;
  bodenart := bodenart prev;
  gelaendeneigung := value;
  manningN := manningN prev;
  fliesslaenge := fliesslaenge prev;
  latitude := latitude prev;
  longitude := longitude prev
|}.

(** The argument record of [computeKinematicWaveSolution]. *)
Module KW.
Record Params : Type := {
  length : number;
  rainfall : number;
  slope : number;
  manningN : number;
  width : number
}.
End KW.

(** ** Tables *)

(** The return period in years of a design storm. *)
Definition jahre (t : Bemessungsregen) : Z :=
  match t with T30 => 30%Z | T100 => 100%Z end.

(** KOSTRA-DWD 2020 rainfall intensities for Berlin, 15 min, in mm/hr. *)
Definition BERLIN_KOSTRA : list (Z * number) :=
  [ (2%Z, 95); (5%Z, 125); (10%Z, 145); (30%Z, 175); (50%Z, 195); (100%Z, 220) ].

(** [table[key]]: the entry under [key], if the object has one. *)
Fixpoint lookup (key : Z) (table : list (Z * number)) : option number :=
  match table with
  | [] => None
  | (k, v) :: rest => if Z.eqb k key then Some v else lookup key rest
  end.

(** A missing key reads [undefined], which is NaN in any arithmetic. *)
Definition BERLIN_KOSTRA_at (key : Z) : number :=
  match lookup key BERLIN_KOSTRA with
  | Some v => v
  | None => nan
  end.

Definition SOIL_SCS_MAP (b : Bodenart) : SCSGroup :=
  match b with
  | GW => SCS_A
  | GI => SCS_A
  | SE => SCS_A
  | SU => SCS_B
  | TL => SCS_C
  | TM => SCS_D
  end.

Record DINRunoffCoefficients : Type := {
  dach_flach : number;
  dach_steil : number;
  asphalt_beton : number;
  pflaster_fugen : number;
  kies_schotter : number;
  gruenflaeche : number;
  extensivbegruenunng : number;
  intensivbegruenunng : number
}.

Definition DIN_RUNOFF_COEFFICIENTS : DINRunoffCoefficients := {|
  dach_flach := 0.9;
  dach_steil := 0.9;
  asphalt_beton := 0.9;
  pflaster_fugen := 0.75;
  kies_schotter := 0.3;
  gruenflaeche := 0.15;
  extensivbegruenunng := 0.3;
  intensivbegruenunng := 0.1
|}.

(** ** Compliance status and recommendations *)

Definition determineComplianceStatus
    (required : bool) (qRational qPINN retentionM3 : number) : NachweisStatus :=
  if negb required then BESTANDEN
  else
    let ratio := qPINN / qRational in
    if JS.lt ratio 0.3 || JS.gt ratio 3.0 then PRUEFUNG_ERFORDERLICH
    else if JS.lt retentionM3 50 then BESTANDEN
    else if JS.lt retentionM3 200 then PRUEFUNG_ERFORDERLICH
    else NICHT_BESTANDEN.

Definition rec_hoch : string :=
  "Hoher Versiegelungsgrad (>80%). Entsiegelung oder Retentionsdach empfohlen.".
Definition rec_T100 : string :=
  "T=100a Bemessungsregen angesetzt (Versiegelungsgrad ≥70%). Intensive Dachbegrünung kann den Abflussbeiwert senken.".
Definition rec_gross : string :=
  "Bei Grundstücken >2.000 m² ist eine detaillierte Überflutungssimulation (2D) empfohlen.".
Definition rec_divergenz : string :=
  "Analytische und PINN-Methode zeigen Divergenz. Manuelle Prüfung durch Bauvorlageberechtigten erforderlich.".
Definition rec_rueckhalt : string :=
  "Erforderliches Rückhaltevolumen überschreitet zulässige Grenzen. Entwässerungskonzept überarbeiten.".
Definition rec_rigole : string :=
  "Prüfung eines Rigolen- oder Muldenversickerungssystems gemäß DWA-A 138 empfohlen.".
Definition rec_hinweis : string :=
  "Hinweis: Dieser Entwurf ersetzt nicht die Prüfung und Freigabe durch einen Bauvorlageberechtigten Ingenieur.".

Definition status_eqb (a b : NachweisStatus) : bool :=
  match a, b with
  | BESTANDEN, BESTANDEN => true
  | NICHT_BESTANDEN, NICHT_BESTANDEN => true
  | PRUEFUNG_ERFORDERLICH, PRUEFUNG_ERFORDERLICH => true
  | _, _ => false
  end.

(** [recs.push(s)] under a guard: the list grows at its end. *)
Definition push_if (c : bool) (s : list string) (recs : list string) : list string :=
  if c then recs ++ s else recs.

Definition generateRecommendations
    (input : DIN1986Input) (versiegelungsgrad : number) (status : NachweisStatus)
    : list string :=
  let recs := [] in
  let recs := push_if (JS.gt versiegelungsgrad 0.8) [rec_hoch] recs in
  let recs := push_if (JS.ge versiegelungsgrad 0.7) [rec_T100] recs in
  let recs := push_if (JS.gt (grundstuecksflaeche input) 2000) [rec_gross] recs in
  let recs := push_if (status_eqb status PRUEFUNG_ERFORDERLICH) [rec_divergenz] recs in
  let recs := push_if (status_eqb status NICHT_BESTANDEN) [rec_rueckhalt; rec_rigole] recs in
  recs ++ [rec_hinweis].

(** The threshold indicator of the form, [CoPilotPage.tsx]. *)
Definition CoPilotPage_nachweisErforderlich (input : DIN1986Input) : bool :=
  JS.gt (versiegelteFlaeche input) 800.

Definition CoPilotPage_versiegelungsgrad (input : DIN1986Input) : number :=
  if grundstuecksflaeche input <=? 0 then 0
  else versiegelteFlaeche input / grundstuecksflaeche input.

(** ** The engine *)

Section Engine.

(** [RUNOFF_COEFFICIENTS.impervious] and [RUNOFF_COEFFICIENTS.pervious],
    [computePeakRunoff] and [computeWQv] of [utils/hydrology]. *)
Variable RUNOFF_impervious RUNOFF_pervious : number.
Variable computePeakRunoff : number -> number -> number -> number.
Variable computeWQv : number -> number -> number -> number.

(** [KinematicWaveResult] and [computeKinematicWaveSolution] of
    [ml/pinnModel]; the engine reads the field [peakDischarge] only. *)
Variable KinematicWaveResult : Type.
Variable peakDischarge : KinematicWaveResult -> number.
Variable computeKinematicWaveSolution : KW.Params -> KinematicWaveResult.

(** The conversion of a number to a string inside a template literal. *)
Variable numberToString : number -> string.

Record DIN1986Result : Type := {
  nachweisErforderlich : bool;
  begruendung : string;
  abflusswirksameFlaeche : number;
  versiegelungsgrad : number;
  bemessungsregenJahre : Bemessungsregen;
  regenspende : number;
  abflussbeiwert : number;
  spitzenabflussRational : number;
  spitzenabflussPINN : number;
  rueckhaltevolumen : number;
  wasserqualitaetsvolumen : number;
  kinematischeWelle : KinematicWaveResult;
  nachweisStatus : NachweisStatus;
  zeitstempel : string;
  empfehlungen : list string
}.

(** The argument the engine builds for the kinematic-wave solver. *)
Definition kinematicWaveParams (input : DIN1986Input) (regenspende : number)
    : KW.Params :=
  let slopeDecimal := gelaendeneigung input / 100 in
  {| KW.length := fliesslaenge input;
     KW.rainfall := regenspende;
     KW.slope := JS.Math_max slopeDecimal 0.001;
     KW.manningN := manningN input;
     KW.width := JS.Math_sqrt (grundstuecksflaeche input) |}.

(** [jetzt] is what [new Date().toISOString()] reads at the call. *)
Definition performDIN1986Assessment (jetzt : string) (input : DIN1986Input)
    : DIN1986Result :=
  let abflusswirksameFlaeche := versiegelteFlaeche input in
  let versiegelungsgrad := versiegelteFlaeche input / grundstuecksflaeche input in
  let nachweisErforderlich := JS.gt abflusswirksameFlaeche 800 in
  let begruendung :=
    if nachweisErforderlich
    then ("Abflusswirksame Fläche (" ++ numberToString abflusswirksameFlaeche
          ++ " m²) überschreitet 800 m² Schwellenwert nach DIN 1986-100 §14.9.2")%string
    else ("Abflusswirksame Fläche (" ++ numberToString abflusswirksameFlaeche
          ++ " m²) unter 800 m² — vereinfachtes Verfahren ausreichend")%string in
  let bemessungsregenJahre := if JS.ge versiegelungsgrad 0.7 then T100 else T30 in
  let regenspende := BERLIN_KOSTRA_at (jahre bemessungsregenJahre) in
  let perviousArea := grundstuecksflaeche input - versiegelteFlaeche input in
  let abflussbeiwert :=
    ((versiegelteFlaeche input * RUNOFF_impervious)
     + (perviousArea * RUNOFF_pervious)) / grundstuecksflaeche input in
  let spitzenabflussRational :=
    computePeakRunoff regenspende (grundstuecksflaeche input) abflussbeiwert in
  let kinematischeWelle :=
    computeKinematicWaveSolution (kinematicWaveParams input regenspende) in
  let spitzenabflussPINN := peakDischarge kinematischeWelle in
  let wasserqualitaetsvolumen :=
    computeWQv 25 (grundstuecksflaeche input) abflussbeiwert in
  let rueckhaltevolumen := wasserqualitaetsvolumen / 1000 in
  let nachweisStatus :=
    determineComplianceStatus nachweisErforderlich spitzenabflussRational
      spitzenabflussPINN rueckhaltevolumen in
  let empfehlungen := generateRecommendations input versiegelungsgrad nachweisStatus in
  {| nachweisErforderlich := nachweisErforderlich;
     begruendung := begruendung;
     abflusswirksameFlaeche := abflusswirksameFlaeche;
     versiegelungsgrad := versiegelungsgrad;
     bemessungsregenJahre := bemessungsregenJahre;
     regenspende := regenspende;
     abflussbeiwert := abflussbeiwert;
     spitzenabflussRational := spitzenabflussRational;
     spitzenabflussPINN := spitzenabflussPINN;
     rueckhaltevolumen := rueckhaltevolumen;
     wasserqualitaetsvolumen := wasserqualitaetsvolumen;
     kinematischeWelle := kinematischeWelle;
     nachweisStatus := nachweisStatus;
     zeitstempel := jetzt;
     empfehlungen := empfehlungen |}.

End Engine.

Arguments nachweisErforderlich {KinematicWaveResult} _.
Arguments begruendung {KinematicWaveResult} _.
Arguments abflusswirksameFlaeche {KinematicWaveResult} _.
Arguments versiegelungsgrad {KinematicWaveResult} _.
Arguments bemessungsregenJahre {KinematicWaveResult} _.
Arguments regenspende {KinematicWaveResult} _.
Arguments abflussbeiwert {KinematicWaveResult} _.
Arguments spitzenabflussRational {KinematicWaveResult} _.
Arguments spitzenabflussPINN {KinematicWaveResult} _.
Arguments rueckhaltevolumen {KinematicWaveResult} _.
Arguments wasserqualitaetsvolumen {KinematicWaveResult} _.
Arguments kinematischeWelle {KinematicWaveResult} _.
Arguments nachweisStatus {KinematicWaveResult} _.
Arguments zeitstempel {KinematicWaveResult} _.
Arguments empfehlungen {KinematicWaveResult} _.

(** ** The weighted runoff coefficient, rounded and exact

    The expression the engine evaluates for [abflussbeiwert], over any
    arithmetic: with the binary64 operations it is the engine's value, with
    those of the rationals the same average without the rounding of each
    operation.  [exact] is the value of a finite binary64 number as a
    rational; the infinities and NaN have none. *)


Definition exact (x : number) : option Q :=
  match Prim2SF x with
  | S754_zero _ => Some 0%Q
  | S754_finite s m e => Some (Qred (inject_Z (cond_Zopp s (Zpos m)) * 2 ^ e))
  | _ => None
  end.


(** ** Sample sites

    Concrete stand-ins for the imports of the engine, to run it on sites. *)

Module Sample.

(** Modelled from the spec: the fixed impervious-surface and
    pervious-surface coefficients of [utils/hydrology], which is not among
    the sources; the spec names them without their values, and the sample
    takes the sealed-surface and green-space entries of
    [DIN_RUNOFF_COEFFICIENTS]. *)
Definition RUNOFF_impervious : number := asphalt_beton DIN_RUNOFF_COEFFICIENTS.
Definition RUNOFF_pervious : number := gruenflaeche DIN_RUNOFF_COEFFICIENTS.

(** Modelled from the spec: [computePeakRunoff] of [utils/hydrology], the
    classic Q = C * I * A scaled to liters per second (mm/hr on m2 is
    liters per hour). *)
Definition computePeakRunoff (rainfall area coeff : number) : number :=
  coeff * rainfall * area / 3600.

(** Modelled from the spec: [computeWQv] of [utils/hydrology], the
    design-rainfall depth on the total area weighted by the runoff
    coefficient, in liters. *)
Definition computeWQv (depth area coeff : number) : number :=
  depth * area * coeff.

(** Modelled from the spec: [computeKinematicWaveSolution] of
    [ml/pinnModel].  The spec gives no formula for the routing; the sample
    keeps the peak discharge only and takes the equilibrium discharge of a
    plane under steady rain, rainfall on length times width, in L/s. *)
Definition KinematicWaveResult : Type := number.
Definition peakDischarge (k : KinematicWaveResult) : number := k.
Definition computeKinematicWaveSolution (p : KW.Params) : KinematicWaveResult :=
  KW.rainfall p * KW.length p * KW.width p / 3600.

(** The whole number a binary64 value stands for, if it is one. *)
Definition to_whole (x : number) : option Z :=
  match Prim2SF x with
  | S754_zero _ => Some 0%Z
  | S754_finite s m e =>
      if (0 <=? e)%Z then Some (cond_Zopp s (Zpos m * 2 ^ e))
      else if (Zpos m mod 2 ^ (- e) =? 0)%Z
           then Some (cond_Zopp s (Zpos m / 2 ^ (- e)))
           else None
  | _ => None
  end.

(** Modelled from the spec: the text of a number in the justification.
    The runtime's conversion is not repository code; the sample renders
    whole numbers in decimal, as the runtime does below 1e21, and leaves
    every other number out of the text. *)
Definition numberToString (x : number) : string :=
  match to_whole x with
  | Some z => NilZero.string_of_int (Z.to_int z)
  | None => EmptyString
  end.

(** [DEFAULT_INPUT] of [CoPilotPage.tsx]. *)
Definition DEFAULT_INPUT : DIN1986Input := {|
  projectName := EmptyString;
  grundstuecksflaeche := 2000;
  versiegelteFlaeche := 1400;
  bodenart := SU;
  gelaendeneigung := 2.0;
  manningN := 0.015;
  fliesslaenge := 50;
  latitude := 52.52;
  longitude := 13.405
|}.

(** The default site with other areas, flow length and soil. *)
Definition site (total sealed laenge : number) (boden : Bodenart) : DIN1986Input := {|
  projectName := EmptyString;
  grundstuecksflaeche := total;
  versiegelteFlaeche := sealed;
  bodenart := boden;
  gelaendeneigung := 2.0;
  manningN := 0.015;
  fliesslaenge := laenge;
  latitude := 52.52;
  longitude := 13.405
|}.

Definition assess : string -> DIN1986Input -> DIN1986Result KinematicWaveResult :=
  performDIN1986Assessment RUNOFF_impervious RUNOFF_pervious
    computePeakRunoff computeWQv KinematicWaveResult peakDischarge
    computeKinematicWaveSolution numberToString.

Definition jetzt : string := "2026-01-15T09:30:00.000Z".

End Sample.

(** ** Order facts on binary64 numbers *)

Module Binary64.

Lemma SFcompare_antisym (x y : spec_float) :
  SFcompare y x = option_map CompOpp (SFcompare x y).
Proof.
  destruct x as [sx|sx| |sx mx ex], y as [sy|sy| |sy my ey]; simpl;
    try reflexivity;
    try (destruct sx; reflexivity); try (destruct sy; reflexivity);
    try (destruct sx, sy; reflexivity).
  destruct sx, sy; simpl; try reflexivity;
    rewrite (Z.compare_antisym ey ex); destruct (ey ?= ex)%Z; simpl;
    try reflexivity;
    change (Pos.compare_cont Eq mx my) with (Pos.compare mx my);
    change (Pos.compare_cont Eq my mx) with (Pos.compare my mx);
    rewrite (Pos.compare_antisym my mx); destruct (my ?= mx)%positive;
    reflexivity.
Qed.

Lemma SFcompare_None (x y : spec_float) :
  SFcompare x y = None -> x = S754_nan \/ y = S754_nan.
Proof.
  destruct x as [sx|sx| |sx mx ex], y as [sy|sy| |sy my ey]; simpl;
    intros H; try discriminate H; auto.
Qed.

Lemma leb_ltb_false (a b : number) : (a <=? b) = true -> (b <? a) = false.
Proof.
  rewrite FloatAxioms.leb_spec, FloatAxioms.ltb_spec. unfold SFleb, SFltb.
  rewrite (SFcompare_antisym (Prim2SF a) (Prim2SF b)).
  destruct (SFcompare (Prim2SF a) (Prim2SF b)) as [[ | | ]|]; simpl; congruence.
Qed.

Lemma ltb_leb (a b : number) : (a <? b) = true -> (a <=? b) = true.
Proof.
  rewrite FloatAxioms.leb_spec, FloatAxioms.ltb_spec. unfold SFleb, SFltb.
  destruct (SFcompare (Prim2SF a) (Prim2SF b)) as [[ | | ]|]; congruence.
Qed.

Lemma not_nan_Prim2SF (a : number) : is_nan a = false -> Prim2SF a <> S754_nan.
Proof.
  unfold is_nan. rewrite FloatAxioms.eqb_spec. intros H E. rewrite E in H. discriminate H.
Qed.

Lemma leb_refl (a : number) : is_nan a = false -> (a <=? a) = true.
Proof.
  unfold is_nan. rewrite FloatAxioms.eqb_spec, FloatAxioms.leb_spec. unfold SFeqb, SFleb.
  destruct (SFcompare (Prim2SF a) (Prim2SF a)) as [[ | | ]|]; simpl; congruence.
Qed.

(** Two numbers, neither NaN and neither below the other, compare equal. *)
Lemma not_ltb_leb (a b : number) :
  is_nan a = false -> is_nan b = false ->
  (a <? b) = false -> (b <? a) = false ->
  (a <=? b) = true /\ (b <=? a) = true.
Proof.
  intros Ha Hb. apply not_nan_Prim2SF in Ha. apply not_nan_Prim2SF in Hb.
  rewrite !FloatAxioms.leb_spec, !FloatAxioms.ltb_spec. unfold SFleb, SFltb.
  rewrite (SFcompare_antisym (Prim2SF a) (Prim2SF b)).
  destruct (SFcompare (Prim2SF a) (Prim2SF b)) as [[ | | ]|] eqn:E; simpl;
    try congruence; auto.
  destruct (SFcompare_None _ _ E); contradiction.
Qed.

(** 200 and 50 have the same significand, two binades apart. *)
Lemma ge_200_not_lt_50 (r : number) : (200 <=? r) = true -> (r <? 50) = false.
Proof.
  rewrite FloatAxioms.leb_spec, FloatAxioms.ltb_spec. unfold SFleb, SFltb.
  change (Prim2SF 200) with (S754_finite false 7036874417766400 (-45)).
  change (Prim2SF 50) with (S754_finite false 7036874417766400 (-47)).
  destruct (Prim2SF r) as [s|s| |s m e]; cbn [SFcompare].
  - intros H; discriminate H.
  - destruct s; intros H; [discriminate H | reflexivity].
  - intros H; discriminate H.
  - destruct s; [intros H; discriminate H|].
    destruct (Z.compare_spec (-45) e) as [E|E|E]; intros H; try discriminate H.
    + subst e. reflexivity.
    + destruct (Z.compare_spec e (-47)) as [F|F|F]; try reflexivity; lia.
Qed.

Lemma is_zero_Prim2SF (a : number) :
  is_zero a = true -> exists s, Prim2SF a = S754_zero s.
Proof.
  unfold is_zero. rewrite FloatAxioms.eqb_spec. unfold SFeqb.
  change (Prim2SF zero) with (S754_zero false).
  destruct (Prim2SF a) as [s|s| |s m e]; cbn [SFcompare].
  - intros _. exists s. reflexivity.
  - destruct s; intros H; discriminate H.
  - intros H; discriminate H.
  - destruct s; intros H; discriminate H.
Qed.

Lemma zeros_leb (a b : number) :
  is_zero a = true -> is_zero b = true -> (a <=? b) = true.
Proof.
  intros Ha Hb. rewrite FloatAxioms.leb_spec.
  destruct (is_zero_Prim2SF a Ha) as [sa ->].
  destruct (is_zero_Prim2SF b Hb) as [sb ->]. reflexivity.
Qed.

(** [Math.max] of two numbers is an upper bound of both and one of them. *)
Lemma Math_max_spec (a b : number) :
  is_nan a = false -> is_nan b = false ->
  (a <=? JS.Math_max a b) = true
  /\ (b <=? JS.Math_max a b) = true
  /\ (JS.Math_max a b = a \/ JS.Math_max a b = b).
Proof.
  intros Ha Hb. unfold JS.Math_max. rewrite Ha, Hb. cbn [orb].
  destruct (JS.is_pos_zero b && JS.is_neg_zero a) eqn:Z.
  - apply andb_prop in Z. destruct Z as [Zb Za].
    apply andb_prop in Zb. apply andb_prop in Za.
    repeat split; auto using leb_refl. apply zeros_leb; tauto.
  - destruct (a <? b) eqn:E1.
    + repeat split; auto using ltb_leb, leb_refl.
    + repeat split; auto using leb_refl.
      destruct (b <? a) eqn:E2; [auto using ltb_leb|].
      apply (not_ltb_leb a b Ha Hb E1 E2).
Qed.

End Binary64.

(** ** Lists of recommendations *)

Lemma In_existsb_eqb (s : string) (l : list string) :
  In s l <-> existsb (String.eqb s) l = true.
Proof.
  split.
  - intros H. apply existsb_exists. exists s.
    split; [assumption | apply String.eqb_refl].
  - intros H. apply existsb_exists in H. destruct H as [x [H E]].
    apply String.eqb_eq in E. subst x. assumption.
Qed.


(** ** Properties of the engine *)

Section EngineProperties.

Variable RUNOFF_impervious RUNOFF_pervious : number.
Variable computePeakRunoff : number -> number -> number -> number.
Variable computeWQv : number -> number -> number -> number.
Variable KinematicWaveResult : Type.
Variable peakDischarge : KinematicWaveResult -> number.
Variable computeKinematicWaveSolution : KW.Params -> KinematicWaveResult.
Variable numberToString : number -> string.

Let assess : string -> DIN1986Input -> DIN1986Result KinematicWaveResult :=
  performDIN1986Assessment RUNOFF_impervious RUNOFF_pervious
    computePeakRunoff computeWQv KinematicWaveResult peakDischarge
    computeKinematicWaveSolution numberToString.

(** C1.  The requirement flag is the comparison "sealed area > 800", in
    the engine and in the indicator of the form alike: at exactly 800 it
    is false, at 800.01 and at the next number above 800 it is true. *)
Theorem C1_nachweis_required_iff_sealed_area_above_800
    (jetzt : string) (input : DIN1986Input) :
  nachweisErforderlich (assess jetzt input) = (800 <? versiegelteFlaeche input)
  /\ CoPilotPage_nachweisErforderlich input = (800 <? versiegelteFlaeche input)
  /\ nachweisErforderlich (assess jetzt (set_versiegelteFlaeche 800 input)) = false
  /\ nachweisErforderlich (assess jetzt (set_versiegelteFlaeche 800.01 input)) = true
  /\ nachweisErforderlich (assess jetzt (set_versiegelteFlaeche (next_up 800) input)) = true.
Proof.
  repeat split; reflexivity.
Qed.

(** C2.  On a site of positive total area the design storm is the
    100-year one exactly when the sealed fraction, sealed area over total
    area, is at least 0.7, and the 30-year one otherwise; a fraction of
    exactly 0.7 selects the 100-year storm; the rainfall intensity is the
    entry of the KOSTRA table under the selected period. *)
Theorem C2_design_storm_by_sealed_fraction
    (jetzt : string) (input : DIN1986Input) :
  (0 <? grundstuecksflaeche input) = true ->
  let r := assess jetzt input in
  let fraction := versiegelteFlaeche input / grundstuecksflaeche input in
  versiegelungsgrad r = fraction
  /\ bemessungsregenJahre r = (if 0.7 <=? fraction then T100 else T30)
  /\ (fraction = 0.7 -> bemessungsregenJahre r = T100)
  /\ lookup (jahre (bemessungsregenJahre r)) BERLIN_KOSTRA = Some (regenspende r)
  /\ regenspende r = match bemessungsregenJahre r with T30 => 175 | T100 => 220 end.
Proof.
  intros _ r fraction. subst r fraction. unfold assess. cbn -[lookup BERLIN_KOSTRA].
  unfold JS.ge.
  repeat split.
  - intros E. rewrite E. reflexivity.
  - destruct (0.7 <=? versiegelteFlaeche input / grundstuecksflaeche input);
      reflexivity.
  - destruct (0.7 <=? versiegelteFlaeche input / grundstuecksflaeche input);
      reflexivity.
Qed.

(** C3.  When the requirement flag is false the status is BESTANDEN,
    whatever the two discharges and the retention volume are. *)
Theorem C3_not_required_passes (jetzt : string) (input : DIN1986Input) :
  nachweisErforderlich (assess jetzt input) = false ->
  nachweisStatus (assess jetzt input) = BESTANDEN
  /\ (forall qRational qPINN retentionM3 : number,
        determineComplianceStatus (nachweisErforderlich (assess jetzt input))
          qRational qPINN retentionM3 = BESTANDEN).
Proof.
  intros H. split.
  - unfold assess, performDIN1986Assessment in *. cbn [nachweisStatus nachweisErforderlich] in *.
    rewrite H. reflexivity.
  - intros. rewrite H. reflexivity.
Qed.

(** C4.  When the requirement flag is true: a ratio of the kinematic-wave
    discharge to the rational-method discharge below 0.3 or above 3.0
    gives PRUEFUNG_ERFORDERLICH whatever the retention volume is;
    otherwise a retention volume below 50 gives BESTANDEN, one from 50 up
    to but excluding 200 gives PRUEFUNG_ERFORDERLICH, and one of 200 or
    more gives NICHT_BESTANDEN. *)
Theorem C4_required_status_by_ratio_then_retention
    (jetzt : string) (input : DIN1986Input) :
  let r := assess jetzt input in
  let ratio := spitzenabflussPINN r / spitzenabflussRational r in
  let retention := rueckhaltevolumen r in
  nachweisErforderlich r = true ->
  (((ratio <? 0.3) || (3.0 <? ratio) = true ->
    nachweisStatus r = PRUEFUNG_ERFORDERLICH)
   /\ ((ratio <? 0.3) || (3.0 <? ratio) = false ->
       ((retention <? 50) = true -> nachweisStatus r = BESTANDEN)
       /\ ((50 <=? retention) = true -> (retention <? 200) = true ->
           nachweisStatus r = PRUEFUNG_ERFORDERLICH)
       /\ ((200 <=? retention) = true -> nachweisStatus r = NICHT_BESTANDEN))).
Proof.
  intros r ratio retention H.
  assert (S : nachweisStatus r
              = determineComplianceStatus true (spitzenabflussRational r)
                  (spitzenabflussPINN r) (rueckhaltevolumen r)).
  { rewrite <- H. reflexivity. }
  rewrite S. unfold determineComplianceStatus, JS.lt, JS.gt. cbn [negb].
  fold ratio retention. split.
  - intros D. rewrite D. reflexivity.
  - intros D. rewrite D. repeat split.
    + intros L. rewrite L. reflexivity.
    + intros G L. rewrite (Binary64.leb_ltb_false _ _ G), L. reflexivity.
    + intros G. rewrite (Binary64.ge_200_not_lt_50 _ G),
        (Binary64.leb_ltb_false _ _ G). reflexivity.
Qed.


(** C6.  The list of recommendations is never empty and ends with the
    legal notice; the advisory on a sealing above 80% is in the list
    exactly when the sealed fraction is above 0.8, so not at 0.8 itself.
    The engine calls the generator with its own fraction and status. *)
Theorem C6_recommendations_end_with_notice
    (jetzt : string) (input : DIN1986Input)
    (grad : number) (status : NachweisStatus) :
  let recs := generateRecommendations input grad status in
  recs <> []
  /\ (forall d, last recs d = rec_hinweis)
  /\ (In rec_hoch recs <-> (0.8 <? grad) = true)
  /\ ~ In rec_hoch (generateRecommendations input 0.8 status)
  /\ empfehlungen (assess jetzt input)
     = generateRecommendations input
         (versiegelteFlaeche input / grundstuecksflaeche input)
         (nachweisStatus (assess jetzt input)).
Proof.
  intros recs. subst recs.
  assert (G : forall g,
    let recs := generateRecommendations input g status in
    recs <> [] /\ (forall d, last recs d = rec_hinweis)
    /\ (In rec_hoch recs <-> (0.8 <? g) = true)).
  { intros g recs. subst recs. rewrite In_existsb_eqb.
    unfold generateRecommendations, push_if, JS.gt, JS.ge.
    destruct (0.8 <? g), (0.7 <=? g), (2000 <? grundstuecksflaeche input), status;
      cbn [status_eqb app];
      (split; [discriminate | split; [intros d; reflexivity | ]]);
      vm_compute; split; intros E; (reflexivity || discriminate E). }
  destruct (G grad) as [N [L I]]. repeat split; try assumption.
  - apply I.
  - apply I.
  - destruct (G 0.8) as [_ [_ I8]]. intros E. apply I8 in E. discriminate E.
Qed.

(** C7.  The slope handed to the kinematic-wave solver is [Math.max] of
    the input slope over 100 and 0.001: for a slope that is a number it
    is the larger of the two, and for a slope of 0 it is 0.001; the solver
    is called on it for every input and its result is reported. *)
Theorem C7_slope_clamped_to_floor
    (jetzt : string) (input : DIN1986Input) :
  let r := assess jetzt input in
  let p := kinematicWaveParams input (regenspende r) in
  let s := gelaendeneigung input / 100 in
  kinematischeWelle r = computeKinematicWaveSolution p
  /\ spitzenabflussPINN r = peakDischarge (computeKinematicWaveSolution p)
  /\ KW.slope p = JS.Math_max s 0.001
  /\ (is_nan s = false ->
      (s <=? KW.slope p) = true /\ (0.001 <=? KW.slope p) = true
      /\ (KW.slope p = s \/ KW.slope p = 0.001))
  /\ (let r0 := assess jetzt (set_gelaendeneigung 0 input) in
      let p0 := kinematicWaveParams (set_gelaendeneigung 0 input) (regenspende r0) in
      KW.slope p0 = 0.001
      /\ kinematischeWelle r0 = computeKinematicWaveSolution p0).
Proof.
  intros r p s.
  split; [reflexivity|]. split; [reflexivity|]. split; [reflexivity|].
  split; [|split; reflexivity].
  intros Hs. apply (Binary64.Math_max_spec s 0.001 Hs). reflexivity.
Qed.

(** C9.  Two inputs that agree on every field but the soil category give
    results that agree on every field but, possibly, the timestamp. *)
Theorem C9_bodenart_has_no_influence
    (jetzt1 jetzt2 : string) (i1 i2 : DIN1986Input) :
  projectName i1 = projectName i2 ->
  grundstuecksflaeche i1 = grundstuecksflaeche i2 ->
  versiegelteFlaeche i1 = versiegelteFlaeche i2 ->
  gelaendeneigung i1 = gelaendeneigung i2 ->
  manningN i1 = manningN i2 ->
  fliesslaenge i1 = fliesslaenge i2 ->
  latitude i1 = latitude i2 ->
  longitude i1 = longitude i2 ->
  let r1 := assess jetzt1 i1 in
  let r2 := assess jetzt2 i2 in
  nachweisErforderlich r1 = nachweisErforderlich r2
  /\ begruendung r1 = begruendung r2
  /\ abflusswirksameFlaeche r1 = abflusswirksameFlaeche r2
  /\ versiegelungsgrad r1 = versiegelungsgrad r2
  /\ bemessungsregenJahre r1 = bemessungsregenJahre r2
  /\ regenspende r1 = regenspende r2
  /\ abflussbeiwert r1 = abflussbeiwert r2
  /\ spitzenabflussRational r1 = spitzenabflussRational r2
  /\ spitzenabflussPINN r1 = spitzenabflussPINN r2
  /\ rueckhaltevolumen r1 = rueckhaltevolumen r2
  /\ wasserqualitaetsvolumen r1 = wasserqualitaetsvolumen r2
  /\ kinematischeWelle r1 = kinematischeWelle r2
  /\ nachweisStatus r1 = nachweisStatus r2
  /\ empfehlungen r1 = empfehlungen r2.
Proof.
  destruct i1 as [n1 g1 v1 b1 s1 m1 f1 la1 lo1], i2 as [n2 g2 v2 b2 s2 m2 f2 la2 lo2].
  cbn [projectName grundstuecksflaeche versiegelteFlaeche gelaendeneigung
       manningN fliesslaenge latitude longitude].
  intros En Eg Ev Es Em Ef Ela Elo. subst.
  repeat split.
Qed.

(** C10.  The runoff-effective area of the result is the sealed area of
    the input as it came in, for any runoff coefficients; the comparison
    with 800 and the justification text are made from this value. *)
Theorem C10_effective_area_is_raw_sealed_area
    (jetzt : string) (input : DIN1986Input) :
  let r := assess jetzt input in
  abflusswirksameFlaeche r = versiegelteFlaeche input
  /\ nachweisErforderlich r = JS.gt (abflusswirksameFlaeche r) 800
  /\ begruendung r
     = (if nachweisErforderlich r
        then "Abflusswirksame Fläche (" ++ numberToString (abflusswirksameFlaeche r)
             ++ " m²) überschreitet 800 m² Schwellenwert nach DIN 1986-100 §14.9.2"
        else "Abflusswirksame Fläche (" ++ numberToString (abflusswirksameFlaeche r)
             ++ " m²) unter 800 m² — vereinfachtes Verfahren ausreichend")%string.
Proof.
  repeat split.
Qed.

End EngineProperties.

(** ** The engine on sample sites *)

(** The scenario of the form's defaults: 1400 m2 sealed out of 2000 m2 asks
    for the verification, has a sealed fraction of 0.7 and takes the
    100-year storm. *)
Example scenario_default_site :
  let r := Sample.assess Sample.jetzt Sample.DEFAULT_INPUT in
  nachweisErforderlich r = true
  /\ versiegelungsgrad r = 0.7
  /\ bemessungsregenJahre r = T100
  /\ regenspende r = 220.
Proof.
  repeat split; reflexivity.
Qed.


(** C2 on a site of 1000 m2 with 700 m2 sealed: the fraction is exactly 0.7. *)
Lemma C2_witness_site_1000_700 :
  let input := Sample.site 1000 700 50 SU in
  let r := Sample.assess Sample.jetzt input in
  (0 <? grundstuecksflaeche input) = true
  /\ versiegelungsgrad r = 0.7
  /\ bemessungsregenJahre r = T100
  /\ regenspende r = 220.
Proof.
  pose proof (C2_design_storm_by_sealed_fraction
                Sample.RUNOFF_impervious Sample.RUNOFF_pervious
                Sample.computePeakRunoff Sample.computeWQv
                Sample.KinematicWaveResult Sample.peakDischarge
                Sample.computeKinematicWaveSolution Sample.numberToString
                Sample.jetzt (Sample.site 1000 700 50 SU) eq_refl)
    as [F [_ [B [_ R]]]].
  split; [reflexivity|]. split; [exact F|]. split; [exact (B eq_refl)|].
  unfold Sample.assess. rewrite R, (B eq_refl). reflexivity.
Defined.

(** C3 on a site with 600 m2 sealed. *)
Lemma C3_witness_site_2000_600 :
  let r := Sample.assess Sample.jetzt (Sample.site 2000 600 50 SU) in
  nachweisErforderlich r = false /\ nachweisStatus r = BESTANDEN.
Proof.
  split; [reflexivity|].
  apply (C3_not_required_passes
           Sample.RUNOFF_impervious Sample.RUNOFF_pervious
           Sample.computePeakRunoff Sample.computeWQv
           Sample.KinematicWaveResult Sample.peakDischarge
           Sample.computeKinematicWaveSolution Sample.numberToString
           Sample.jetzt (Sample.site 2000 600 50 SU) eq_refl).
Defined.

(** C4 on four sites above the threshold, one for each outcome: diverging
    methods, small, medium and large retention volume. *)
Lemma C4_witness_four_sites :
  (let r := Sample.assess Sample.jetzt (Sample.site 100000 80000 50 SU) in
   nachweisErforderlich r = true
   /\ (spitzenabflussPINN r / spitzenabflussRational r <? 0.3) = true
   /\ (200 <=? rueckhaltevolumen r) = true
   /\ nachweisStatus r = PRUEFUNG_ERFORDERLICH)
  /\ (let r := Sample.assess Sample.jetzt Sample.DEFAULT_INPUT in
      nachweisErforderlich r = true
      /\ (rueckhaltevolumen r <? 50) = true
      /\ nachweisStatus r = BESTANDEN)
  /\ (let r := Sample.assess Sample.jetzt (Sample.site 5000 2500 50 SU) in
      nachweisErforderlich r = true
      /\ (50 <=? rueckhaltevolumen r) = true
      /\ (rueckhaltevolumen r <? 200) = true
      /\ nachweisStatus r = PRUEFUNG_ERFORDERLICH)
  /\ (let r := Sample.assess Sample.jetzt (Sample.site 100000 80000 200 SU) in
      nachweisErforderlich r = true
      /\ (200 <=? rueckhaltevolumen r) = true
      /\ nachweisStatus r = NICHT_BESTANDEN).
Proof.
  pose (C4 := C4_required_status_by_ratio_then_retention
                Sample.RUNOFF_impervious Sample.RUNOFF_pervious
                Sample.computePeakRunoff Sample.computeWQv
                Sample.KinematicWaveResult Sample.peakDischarge
                Sample.computeKinematicWaveSolution Sample.numberToString
                Sample.jetzt).
  split; [|split; [|split]].
  - split; [reflexivity|]. split; [reflexivity|]. split; [reflexivity|].
    exact (proj1 (C4 (Sample.site 100000 80000 50 SU) eq_refl) eq_refl).
  - split; [reflexivity|]. split; [reflexivity|].
    exact (proj1 (proj2 (C4 Sample.DEFAULT_INPUT eq_refl) eq_refl) eq_refl).
  - split; [reflexivity|]. split; [reflexivity|]. split; [reflexivity|].
    exact (proj1 (proj2 (proj2 (C4 (Sample.site 5000 2500 50 SU) eq_refl) eq_refl))
             eq_refl eq_refl).
  - split; [reflexivity|]. split; [reflexivity|].
    exact (proj2 (proj2 (proj2 (C4 (Sample.site 100000 80000 200 SU) eq_refl) eq_refl))
             eq_refl).
Defined.


(** C9 on the default site, once on silty sand and once on clay, assessed
    at two different times. *)
Lemma C9_witness_sand_and_clay :
  let r1 := Sample.assess Sample.jetzt (Sample.site 2000 1400 50 SU) in
  let r2 := Sample.assess "2026-02-01T12:00:00.000Z" (Sample.site 2000 1400 50 TM) in
  bodenart (Sample.site 2000 1400 50 SU) <> bodenart (Sample.site 2000 1400 50 TM)
  /\ zeitstempel r1 <> zeitstempel r2
  /\ nachweisErforderlich r1 = nachweisErforderlich r2
  /\ begruendung r1 = begruendung r2
  /\ abflusswirksameFlaeche r1 = abflusswirksameFlaeche r2
  /\ versiegelungsgrad r1 = versiegelungsgrad r2
  /\ bemessungsregenJahre r1 = bemessungsregenJahre r2
  /\ regenspende r1 = regenspende r2
  /\ abflussbeiwert r1 = abflussbeiwert r2
  /\ spitzenabflussRational r1 = spitzenabflussRational r2
  /\ spitzenabflussPINN r1 = spitzenabflussPINN r2
  /\ rueckhaltevolumen r1 = rueckhaltevolumen r2
  /\ wasserqualitaetsvolumen r1 = wasserqualitaetsvolumen r2
  /\ kinematischeWelle r1 = kinematischeWelle r2
  /\ nachweisStatus r1 = nachweisStatus r2
  /\ empfehlungen r1 = empfehlungen r2.
Proof.
  split; [discriminate|]. split; [discriminate|].
  exact (C9_bodenart_has_no_influence
           Sample.RUNOFF_impervious Sample.RUNOFF_pervious
           Sample.computePeakRunoff Sample.computeWQv
           Sample.KinematicWaveResult Sample.peakDischarge
           Sample.computeKinematicWaveSolution Sample.numberToString
           Sample.jetzt "2026-02-01T12:00:00.000Z"
           (Sample.site 2000 1400 50 SU) (Sample.site 2000 1400 50 TM)
           eq_refl eq_refl eq_refl eq_refl eq_refl eq_refl eq_refl eq_refl).
Defined.

(** * Further properties of the engine, the form and the reports *)

(** ** The order of binary64 numbers

    The comparison of the specification of the floats is the lexicographic
    order of a key: the class of the number, then exponent and significand,
    negated for the negative numbers.  NaN has no key. *)

Module Order.

Definition key (x : spec_float) : option (Z * Z * Z) :=
  match x with
  | S754_nan => None
  | S754_infinity true => Some (-2, 0, 0)%Z
  | S754_finite true m e => Some (-1, - e, Zneg m)%Z
  | S754_zero _ => Some (0, 0, 0)%Z
  | S754_finite false m e => Some (1, e, Zpos m)%Z
  | S754_infinity false => Some (2, 0, 0)%Z
  end.

Definition lex3 (a b : Z * Z * Z) : comparison :=
  match a, b with
  | (a1, a2, a3), (b1, b2, b3) =>
      match (a1 ?= b1)%Z with
      | Eq => match (a2 ?= b2)%Z with Eq => (a3 ?= b3)%Z | c => c end
      | c => c
      end
  end.

Definition lt3 (a b : Z * Z * Z) : Prop :=
  match a, b with
  | (a1, a2, a3), (b1, b2, b3) =>
      (a1 < b1 \/ (a1 = b1 /\ (a2 < b2 \/ (a2 = b2 /\ a3 < b3))))%Z
  end.

Lemma SFcompare_key (x y : spec_float) :
  SFcompare x y
  = match key x, key y with
    | Some a, Some b => Some (lex3 a b)
    | _, _ => None
    end.
Proof.
  destruct x as [sx|sx| |sx mx ex], y as [sy|sy| |sy my ey];
    try (destruct sx); try (destruct sy); try reflexivity.
  - cbn [SFcompare key lex3]. rewrite Z.compare_opp.
    change (-1 ?= -1)%Z with Eq. rewrite (Z.compare_antisym ex ey).
    destruct (ex ?= ey)%Z; reflexivity.
Qed.

Lemma lex3_Lt (a b : Z * Z * Z) : lex3 a b = Lt <-> lt3 a b.
Proof.
  destruct a as [[a1 a2] a3], b as [[b1 b2] b3]. unfold lex3, lt3.
  destruct (Z.compare_spec a1 b1); [destruct (Z.compare_spec a2 b2);
    [destruct (Z.compare_spec a3 b3)| | ] | | ];
    split; intros K; try discriminate K; try reflexivity; lia.
Qed.

Lemma lex3_Eq (a b : Z * Z * Z) : lex3 a b = Eq <-> a = b.
Proof.
  destruct a as [[a1 a2] a3], b as [[b1 b2] b3]. unfold lex3.
  destruct (Z.compare_spec a1 b1); [destruct (Z.compare_spec a2 b2);
    [destruct (Z.compare_spec a3 b3)| | ] | | ];
    split; intros K; try discriminate K; try reflexivity;
    try (inversion K; lia); subst; reflexivity.
Qed.

(** Reading the comparisons of two numbers off their keys. *)
Lemma ltb_key (a b : number) :
  (a <? b) = true <->
  exists ka kb, key (Prim2SF a) = Some ka /\ key (Prim2SF b) = Some kb /\ lt3 ka kb.
Proof.
  rewrite FloatAxioms.ltb_spec. unfold SFltb. rewrite SFcompare_key.
  destruct (key (Prim2SF a)) as [ka|], (key (Prim2SF b)) as [kb|].
  - split.
    + intros H. exists ka, kb. repeat split. apply lex3_Lt.
      destruct (lex3 ka kb); try discriminate H; reflexivity.
    + intros [ka' [kb' [E1 [E2 H]]]]. inversion E1; inversion E2; subst.
      apply lex3_Lt in H. rewrite H. reflexivity.
  - split; [discriminate | intros [? [? [_ [E _]]]]; discriminate E].
  - split; [discriminate | intros [? [? [E _]]]; discriminate E].
  - split; [discriminate | intros [? [? [E _]]]; discriminate E].
Qed.

Lemma leb_key (a b : number) :
  (a <=? b) = true <->
  exists ka kb, key (Prim2SF a) = Some ka /\ key (Prim2SF b) = Some kb
                /\ (lt3 ka kb \/ ka = kb).
Proof.
  rewrite FloatAxioms.leb_spec. unfold SFleb. rewrite SFcompare_key.
  destruct (key (Prim2SF a)) as [ka|], (key (Prim2SF b)) as [kb|].
  - split.
    + intros H. exists ka, kb. repeat split.
      destruct (lex3 ka kb) eqn:E; try discriminate H;
        [right; apply lex3_Eq | left; apply lex3_Lt]; assumption.
    + intros [ka' [kb' [E1 [E2 H]]]]. inversion E1; inversion E2; subst.
      destruct H as [H|H]; [apply lex3_Lt in H | apply lex3_Eq in H];
        rewrite H; reflexivity.
  - split; [discriminate | intros [? [? [_ [E _]]]]; discriminate E].
  - split; [discriminate | intros [? [? [E _]]]; discriminate E].
  - split; [discriminate | intros [? [? [E _]]]; discriminate E].
Qed.

(** Transitivity, with the mixed forms the thresholds need. *)
Lemma lt3_trans (a b c : Z * Z * Z) : lt3 a b -> lt3 b c -> lt3 a c.
Proof.
  destruct a as [[a1 a2] a3], b as [[b1 b2] b3], c as [[c1 c2] c3].
  unfold lt3. lia.
Qed.

Ltac keys :=
  repeat match goal with
  | H : (_ <? _) = true |- _ => apply ltb_key in H; destruct H as [? [? [? [? ?]]]]
  | H : (_ <=? _) = true |- _ => apply leb_key in H; destruct H as [? [? [? [? ?]]]]
  end;
  repeat match goal with
  | H1 : key ?x = Some ?k1, H2 : key ?x = Some ?k2 |- _ =>
      rewrite H1 in H2; inversion H2; subst; clear H2
  end.

Lemma ltb_trans (a b c : number) :
  (a <? b) = true -> (b <? c) = true -> (a <? c) = true.
Proof.
  intros H1 H2. keys. apply ltb_key. eauto 6 using lt3_trans.
Qed.

Lemma ltb_leb_trans (a b c : number) :
  (a <? b) = true -> (b <=? c) = true -> (a <? c) = true.
Proof.
  intros H1 H2. keys. apply ltb_key.
  match goal with H : _ \/ _ |- _ => destruct H end; subst; eauto 6 using lt3_trans.
Qed.

Lemma leb_ltb_trans (a b c : number) :
  (a <=? b) = true -> (b <? c) = true -> (a <? c) = true.
Proof.
  intros H1 H2. keys. apply ltb_key.
  match goal with H : _ \/ _ |- _ => destruct H end; subst; eauto 6 using lt3_trans.
Qed.

Lemma leb_trans (a b c : number) :
  (a <=? b) = true -> (b <=? c) = true -> (a <=? c) = true.
Proof.
  intros H1 H2. keys. apply leb_key.
  repeat match goal with H : _ \/ _ |- _ => destruct H end; subst;
    eauto 7 using lt3_trans.
Qed.

(** NaN is the one number without a key; it compares false with all. *)
Lemma key_None (p : spec_float) : key p = None -> p = S754_nan.
Proof.
  destruct p as [s|s| |s m e]; try (destruct s); intros H;
    try discriminate H; reflexivity.
Qed.

Lemma lex3_refl (a : Z * Z * Z) : lex3 a a = Eq.
Proof. apply lex3_Eq. reflexivity. Qed.

Lemma lex3_antisym (a b : Z * Z * Z) : lex3 b a = CompOpp (lex3 a b).
Proof.
  destruct a as [[a1 a2] a3], b as [[b1 b2] b3]. unfold lex3.
  rewrite (Z.compare_antisym a1 b1), (Z.compare_antisym a2 b2),
    (Z.compare_antisym a3 b3).
  destruct (a1 ?= b1)%Z, (a2 ?= b2)%Z, (a3 ?= b3)%Z; reflexivity.
Qed.

Lemma is_nan_true (x : number) : is_nan x = true -> Prim2SF x = S754_nan.
Proof.
  unfold is_nan. rewrite FloatAxioms.eqb_spec. unfold SFeqb.
  rewrite SFcompare_key. destruct (key (Prim2SF x)) as [k|] eqn:K.
  - rewrite lex3_refl. intros H; discriminate H.
  - intros _. apply key_None. assumption.
Qed.

Lemma is_nan_false (x : number) :
  is_nan x = false -> exists k, key (Prim2SF x) = Some k.
Proof.
  unfold is_nan. rewrite FloatAxioms.eqb_spec. unfold SFeqb.
  rewrite SFcompare_key. destruct (key (Prim2SF x)) as [k|] eqn:K.
  - intros _. exists k. reflexivity.
  - intros H; discriminate H.
Qed.

Lemma key_is_nan (x : number) (k : Z * Z * Z) :
  key (Prim2SF x) = Some k -> is_nan x = false.
Proof.
  intros K. unfold is_nan. rewrite FloatAxioms.eqb_spec. unfold SFeqb.
  rewrite SFcompare_key, K, lex3_refl. reflexivity.
Qed.

Lemma nan_compares_false (x y : number) :
  is_nan x = true ->
  (x <? y) = false /\ (y <? x) = false /\ (x <=? y) = false /\ (y <=? x) = false.
Proof.
  intros H. apply is_nan_true in H.
  rewrite !FloatAxioms.ltb_spec, !FloatAxioms.leb_spec. unfold SFltb, SFleb.
  rewrite !SFcompare_key, H. cbn [key].
  destruct (key (Prim2SF y)); repeat split.
Qed.

Lemma ltb_not_nan (a b : number) :
  (a <? b) = true -> is_nan a = false /\ is_nan b = false.
Proof.
  intros H. keys. split; eapply key_is_nan; eassumption.
Qed.

Lemma leb_not_nan (a b : number) :
  (a <=? b) = true -> is_nan a = false /\ is_nan b = false.
Proof.
  intros H. keys. split; eapply key_is_nan; eassumption.
Qed.

(** On numbers the order is total. *)
Lemma ltb_false_leb (a b : number) :
  is_nan a = false -> is_nan b = false -> (a <? b) = false -> (b <=? a) = true.
Proof.
  intros Ha Hb. apply is_nan_false in Ha. apply is_nan_false in Hb.
  destruct Ha as [ka Ka], Hb as [kb Kb].
  rewrite FloatAxioms.ltb_spec, FloatAxioms.leb_spec. unfold SFltb, SFleb.
  rewrite !SFcompare_key, Ka, Kb, (lex3_antisym ka kb).
  destruct (lex3 ka kb); cbn [CompOpp]; congruence.
Qed.

Lemma leb_false_ltb (a b : number) :
  is_nan a = false -> is_nan b = false -> (a <=? b) = false -> (b <? a) = true.
Proof.
  intros Ha Hb. apply is_nan_false in Ha. apply is_nan_false in Hb.
  destruct Ha as [ka Ka], Hb as [kb Kb].
  rewrite FloatAxioms.ltb_spec, FloatAxioms.leb_spec. unfold SFltb, SFleb.
  rewrite !SFcompare_key, Ka, Kb, (lex3_antisym ka kb).
  destruct (lex3 ka kb); cbn [CompOpp]; congruence.
Qed.

(** A positive number, finite or not, over +0 is +infinity. *)
Lemma div_pos_zero (x : number) : (0 <? x) = true -> x / 0 = infinity.
Proof.
  intros H. apply FloatAxioms.Prim2SF_inj. rewrite FloatAxioms.div_spec.
  rewrite FloatAxioms.ltb_spec in H. unfold SFltb in H.
  change (Prim2SF 0) with (S754_zero false) in *.
  change (Prim2SF infinity) with (S754_infinity false).
  destruct (Prim2SF x) as [s|s| |s m e]; try destruct s; try discriminate H;
    reflexivity.
Qed.

(** A positive finite number over itself is 1. *)
Lemma div_self (x : number) :
  (0 <? x) = true -> (x <? infinity) = true -> x / x = 1.
Proof.
  intros H0 Hi. apply FloatAxioms.Prim2SF_inj. rewrite FloatAxioms.div_spec.
  rewrite FloatAxioms.ltb_spec in H0, Hi. unfold SFltb in H0, Hi.
  change (Prim2SF 0) with (S754_zero false) in *.
  change (Prim2SF infinity) with (S754_infinity false) in *.
  change (Prim2SF 1) with (S754_finite false 4503599627370496 (-52)).
  destruct (Prim2SF x) as [s|s| |s m e]; try destruct s;
    try discriminate H0; try discriminate Hi.
  clear H0 Hi. unfold SF64div, SFdiv, SFdiv_core_binary.
  rewrite !Z.sub_diag.
  change (Z.min (fexp prec emax 0) 0) with (-53)%Z.
  change (0 - -53)%Z with 53%Z. cbv iota.
  destruct (Z.div_eucl (Z.shiftl (Z.pos m) 53) (Z.pos m)) as [q r] eqn:E.
  assert (Q : q = (2 ^ 53)%Z).
  { change q with (fst (q, r)). rewrite <- E.
    change (fst (Z.div_eucl (Z.shiftl (Z.pos m) 53) (Z.pos m)))
      with (Z.shiftl (Z.pos m) 53 / Z.pos m)%Z.
    rewrite Z.shiftl_mul_pow2 by lia. rewrite Z.mul_comm.
    apply Z.div_mul. lia. }
  assert (R : r = 0%Z).
  { change r with (snd (q, r)). rewrite <- E.
    change (snd (Z.div_eucl (Z.shiftl (Z.pos m) 53) (Z.pos m)))
      with (Z.shiftl (Z.pos m) 53 mod Z.pos m)%Z.
    rewrite Z.shiftl_mul_pow2 by lia. rewrite Z.mul_comm.
    apply Z.mod_mul. lia. }
  subst q r. unfold new_location.
  destruct (Z.even (Z.pos m)); reflexivity.
Qed.

End Order.

(** ** The compliance decision *)

(** How bad a status is: passed, to be reviewed, failed. *)
Definition severity (s : NachweisStatus) : nat :=
  match s with
  | BESTANDEN => 0
  | PRUEFUNG_ERFORDERLICH => 1
  | NICHT_BESTANDEN => 2
  end.

(** The decision on the retention volume alone, the last three lines of
    [determineComplianceStatus]. *)
Definition byRetention (retentionM3 : number) : NachweisStatus :=
  if JS.lt retentionM3 50 then BESTANDEN
  else if JS.lt retentionM3 200 then PRUEFUNG_ERFORDERLICH
  else NICHT_BESTANDEN.

Module Decision.

Lemma required_cases (qRational qPINN retentionM3 : number) :
  determineComplianceStatus true qRational qPINN retentionM3
  = if (qPINN / qRational <? 0.3) || (3.0 <? qPINN / qRational)
    then PRUEFUNG_ERFORDERLICH else byRetention retentionM3.
Proof. reflexivity. Qed.

(** A ratio that is a number and neither below 0.3 nor above 3 lies between. *)
Lemma ratio_in_range (ratio : number) :
  (ratio <? 0.3) || (3.0 <? ratio) = false ->
  is_nan ratio = true \/ ((0.3 <=? ratio) = true /\ (ratio <=? 3.0) = true).
Proof.
  intros H. apply orb_false_elim in H. destruct H as [L G].
  destruct (is_nan ratio) eqn:N; [left; reflexivity | right].
  split; apply Order.ltb_false_leb; auto.
Qed.

(** X1.  What a status tells about a site that needs the verification:
    passed means a retention volume below 50 and failed means one that is
    not below 200, both with a ratio of the discharges that is within
    0.3 to 3.0 or not a number at all; a review means diverging methods or
    a volume from 50 up to 200. *)
Theorem status_of_required_site_inverted (qRational qPINN retentionM3 : number) :
  let ratio := qPINN / qRational in
  let status := determineComplianceStatus true qRational qPINN retentionM3 in
  (status = BESTANDEN ->
     (retentionM3 <? 50) = true
     /\ (is_nan ratio = true \/ ((0.3 <=? ratio) = true /\ (ratio <=? 3.0) = true)))
  /\ (status = NICHT_BESTANDEN ->
     (is_nan retentionM3 = true \/ (200 <=? retentionM3) = true)
     /\ (is_nan ratio = true \/ ((0.3 <=? ratio) = true /\ (ratio <=? 3.0) = true)))
  /\ (status = PRUEFUNG_ERFORDERLICH ->
     (ratio <? 0.3) = true \/ (3.0 <? ratio) = true
     \/ ((50 <=? retentionM3) = true /\ (retentionM3 <? 200) = true)).
Proof.
  intros ratio status. subst status. rewrite required_cases. fold ratio.
  destruct ((ratio <? 0.3) || (3.0 <? ratio)) eqn:D.
  - split; [intros H; discriminate H|]. split; [intros H; discriminate H|].
    intros _. apply orb_prop in D. tauto.
  - pose proof (ratio_in_range ratio D) as R. unfold byRetention, JS.lt.
    destruct (retentionM3 <? 50) eqn:L50.
    + split; [auto|]. split; intros H; discriminate H.
    + destruct (retentionM3 <? 200) eqn:L200.
      * split; [intros H; discriminate H|]. split; [intros H; discriminate H|].
        intros _. right. right. split; [|reflexivity].
        destruct (Order.ltb_not_nan _ _ L200) as [N _].
        apply Order.ltb_false_leb; auto.
      * split; [intros H; discriminate H|]. split; [|intros H; discriminate H].
        intros _. split; [|exact R].
        destruct (is_nan retentionM3) eqn:N; [left; reflexivity | right].
        apply Order.ltb_false_leb; auto.
Qed.

(** X2.  A rational-method discharge of zero is not rejected: against a
    positive kinematic-wave discharge the ratio is +infinity and the site
    goes to review whatever its retention volume is. *)
Theorem zero_rational_discharge_goes_to_review (qPINN retentionM3 : number) :
  (0 <? qPINN) = true ->
  qPINN / 0 = infinity
  /\ determineComplianceStatus true 0 qPINN retentionM3 = PRUEFUNG_ERFORDERLICH.
Proof.
  intros H. pose proof (Order.div_pos_zero qPINN H) as E. split; [exact E|].
  rewrite required_cases, E. reflexivity.
Qed.

(** X3.  A ratio that is not a number, as 0 over 0 is, is not taken for a
    divergence: the retention volume alone decides. *)
Theorem nan_ratio_is_no_divergence (qRational qPINN retentionM3 : number) :
  is_nan (qPINN / qRational) = true ->
  determineComplianceStatus true qRational qPINN retentionM3
  = byRetention retentionM3.
Proof.
  intros N. rewrite required_cases.
  destruct (Order.nan_compares_false (qPINN / qRational) 0.3 N) as [L _].
  destruct (Order.nan_compares_false (qPINN / qRational) 3.0 N) as [_ [G _]].
  rewrite L, G. reflexivity.
Qed.

(** X4.  A retention volume that is not a number never passes a site that
    needs the verification. *)
Theorem nan_retention_never_passes (qRational qPINN retentionM3 : number) :
  is_nan retentionM3 = true ->
  determineComplianceStatus true qRational qPINN retentionM3 <> BESTANDEN.
Proof.
  intros N. rewrite required_cases.
  destruct ((qPINN / qRational <? 0.3) || (3.0 <? qPINN / qRational));
    [discriminate|].
  unfold byRetention, JS.lt.
  destruct (Order.nan_compares_false retentionM3 50 N) as [L50 _].
  destruct (Order.nan_compares_false retentionM3 200 N) as [L200 _].
  rewrite L50, L200. discriminate.
Qed.

(** X5.  With the same flag and discharges, a larger retention volume never
    gives a better status. *)
Theorem status_monotone_in_retention
    (required : bool) (qRational qPINN small large : number) :
  (small <=? large) = true ->
  le (severity (determineComplianceStatus required qRational qPINN small))
     (severity (determineComplianceStatus required qRational qPINN large)).
Proof.
  intros H. destruct required; [|apply Nat.le_refl].
  rewrite !required_cases.
  destruct ((qPINN / qRational <? 0.3) || (3.0 <? qPINN / qRational));
    [apply Nat.le_refl|].
  unfold byRetention, JS.lt.
  destruct (large <? 50) eqn:L50.
  - rewrite (Order.leb_ltb_trans _ _ _ H L50). apply Nat.le_refl.
  - destruct (large <? 200) eqn:L200.
    + rewrite (Order.leb_ltb_trans _ _ _ H L200).
      destruct (small <? 50); cbn [severity]; lia.
    + destruct (small <? 50); [cbn [severity]; lia|].
      destruct (small <? 200); cbn [severity]; lia.
Qed.

End Decision.

(** For a kinematic-wave discharge of 12.5 L/s. *)
Lemma zero_rational_discharge_witness :
  (0 <? 12.5) = true
  /\ determineComplianceStatus true 0 12.5 10 = PRUEFUNG_ERFORDERLICH.
Proof.
  split; [reflexivity|].
  exact (proj2 (Decision.zero_rational_discharge_goes_to_review 12.5 10 eq_refl)).
Defined.

(** For two discharges of zero and a volume of 30 m3. *)
Lemma nan_ratio_witness :
  is_nan (0 / 0) = true
  /\ determineComplianceStatus true 0 0 30 = byRetention 30
  /\ byRetention 30 = BESTANDEN.
Proof.
  split; [reflexivity|]. split; [|reflexivity].
  exact (Decision.nan_ratio_is_no_divergence 0 0 30 eq_refl).
Defined.

(** For a volume of 0 over 0. *)
Lemma nan_retention_witness :
  is_nan (0 / 0) = true
  /\ determineComplianceStatus true 100 100 (0 / 0) <> BESTANDEN.
Proof.
  split; [reflexivity|].
  exact (Decision.nan_retention_never_passes 100 100 (0 / 0) eq_refl).
Defined.

(** For volumes of 40 and 120 m3. *)
Lemma status_monotone_witness :
  (40 <=? 120) = true
  /\ le (severity (determineComplianceStatus true 100 100 40))
        (severity (determineComplianceStatus true 100 100 120)).
Proof.
  split; [reflexivity|].
  exact (Decision.status_monotone_in_retention true 100 100 40 120 eq_refl).
Defined.

(** ** The recommendations *)

Module Recommendations.

(** The list, advisory by advisory. *)
Lemma shape (input : DIN1986Input) (grad : number) (status : NachweisStatus) :
  generateRecommendations input grad status
  = (if 0.8 <? grad then [rec_hoch] else [])
    ++ (if 0.7 <=? grad then [rec_T100] else [])
    ++ (if 2000 <? grundstuecksflaeche input then [rec_gross] else [])
    ++ (if status_eqb status PRUEFUNG_ERFORDERLICH then [rec_divergenz] else [])
    ++ (if status_eqb status NICHT_BESTANDEN then [rec_rueckhalt; rec_rigole] else [])
    ++ [rec_hinweis].
Proof.
  unfold generateRecommendations, push_if, JS.gt, JS.ge.
  destruct (0.8 <? grad), (0.7 <=? grad), (2000 <? grundstuecksflaeche input),
    (status_eqb status PRUEFUNG_ERFORDERLICH), (status_eqb status NICHT_BESTANDEN);
    reflexivity.
Qed.

Lemma above_80_is_above_70 (grad : number) :
  (0.8 <? grad) = true -> (0.7 <=? grad) = true.
Proof.
  intros H. apply Binary64.ltb_leb.
  apply (Order.leb_ltb_trans 0.7 0.8 grad); [reflexivity | exact H].
Qed.

(** The seven texts are pairwise different. *)
Lemma texts_differ :
  NoDup [rec_hoch; rec_T100; rec_gross; rec_divergenz; rec_rueckhalt;
         rec_rigole; rec_hinweis].
Proof.
  repeat (constructor;
          [rewrite In_existsb_eqb; vm_compute; discriminate|]).
  constructor.
Qed.

(** X6.  The advisory on a sealing above 80% never comes alone: when it is
    listed it is the first entry and the advisory on the 100-year storm is
    the second. *)
Theorem high_sealing_advisory_is_followed_by_storm_advisory
    (input : DIN1986Input) (grad : number) (status : NachweisStatus) :
  In rec_hoch (generateRecommendations input grad status) ->
  exists rest,
    generateRecommendations input grad status = rec_hoch :: rec_T100 :: rest.
Proof.
  rewrite shape. destruct (0.8 <? grad) eqn:H.
  - intros _. rewrite (above_80_is_above_70 grad H). eexists. reflexivity.
  - intros I. exfalso. revert I. rewrite In_existsb_eqb.
    destruct (0.7 <=? grad), (2000 <? grundstuecksflaeche input), status;
      vm_compute; discriminate.
Qed.

(** Each advisory is listed exactly on its own condition, and no text is
    listed twice. *)
Lemma membership
    (input : DIN1986Input) (grad : number) (status : NachweisStatus) :
  let recs := generateRecommendations input grad status in
  NoDup recs
  /\ le (List.length recs) 6
  /\ (In rec_T100 recs <-> (0.7 <=? grad) = true)
  /\ (In rec_gross recs <-> (2000 <? grundstuecksflaeche input) = true)
  /\ (In rec_divergenz recs <-> status = PRUEFUNG_ERFORDERLICH)
  /\ (In rec_rueckhalt recs <-> status = NICHT_BESTANDEN)
  /\ (In rec_rigole recs <-> status = NICHT_BESTANDEN).
Proof.
  intros recs. subst recs. rewrite shape.
  pose proof texts_differ as D.
  destruct (0.8 <? grad), (0.7 <=? grad), (2000 <? grundstuecksflaeche input),
    status; cbn [status_eqb app List.length];
    (split; [repeat match goal with
                    | H : NoDup (_ :: _) |- _ => inversion_clear H
                    end;
             repeat (constructor; [cbn [In] in *; tauto|]); constructor |]);
    (split; [lia|]);
    rewrite !In_existsb_eqb; vm_compute;
    repeat split; intros E; (reflexivity || discriminate E).
Qed.

(** X7.  No text is listed twice and the list has from one to six
    entries; the divergence advisory is listed exactly for the status
    PRUEFUNG_ERFORDERLICH and the two retention advisories exactly for the
    status NICHT_BESTANDEN, for any site. *)
Theorem status_advisories_follow_status
    (input : DIN1986Input) (grad : number) (status : NachweisStatus) :
  let recs := generateRecommendations input grad status in
  NoDup recs
  /\ le 1 (List.length recs) /\ le (List.length recs) 6
  /\ (In rec_divergenz recs <-> status = PRUEFUNG_ERFORDERLICH)
  /\ (In rec_rueckhalt recs <-> status = NICHT_BESTANDEN)
  /\ (In rec_rigole recs <-> status = NICHT_BESTANDEN).
Proof.
  intros recs.
  destruct (membership input grad status) as [N [L [_ [_ [D [R G]]]]]].
  fold recs in N, L, D, R, G.
  repeat split; try assumption; try apply D; try apply R; try apply G.
  subst recs. rewrite shape. rewrite !length_app. cbn. lia.
Qed.

End Recommendations.

(** ** The form against the engine *)

(** The storm badge next to the sealed fraction on the form. *)
Definition CoPilotPage_bemessungsregen (input : DIN1986Input) : Bemessungsregen :=
  if JS.ge (CoPilotPage_versiegelungsgrad input) 0.7 then T100 else T30.

Section EngineMore.

Variable RUNOFF_impervious RUNOFF_pervious : number.
Variable computePeakRunoff : number -> number -> number -> number.
Variable computeWQv : number -> number -> number -> number.
Variable KinematicWaveResult : Type.
Variable peakDischarge : KinematicWaveResult -> number.
Variable computeKinematicWaveSolution : KW.Params -> KinematicWaveResult.
Variable numberToString : number -> string.

Let assess : string -> DIN1986Input -> DIN1986Result KinematicWaveResult :=
  performDIN1986Assessment RUNOFF_impervious RUNOFF_pervious
    computePeakRunoff computeWQv KinematicWaveResult peakDischarge
    computeKinematicWaveSolution numberToString.

(** X8.  The two tests on the sealed fraction agree: the advisory on the
    100-year storm is in the recommendations of a result exactly when the
    result applies the 100-year storm, and the advisory on large sites
    exactly when the total area is above 2000. *)
Theorem storm_advisory_matches_design_storm (jetzt : string) (input : DIN1986Input) :
  let r := assess jetzt input in
  (In rec_T100 (empfehlungen r) <-> bemessungsregenJahre r = T100)
  /\ (In rec_T100 (empfehlungen r) <-> regenspende r = 220)
  /\ (In rec_gross (empfehlungen r) <-> (2000 <? grundstuecksflaeche input) = true).
Proof.
  intros r.
  destruct (Recommendations.membership input
              (versiegelungsgrad r) (nachweisStatus r)) as [_ [_ [T [G _]]]].
  change (generateRecommendations input (versiegelungsgrad r) (nachweisStatus r))
    with (empfehlungen r) in T, G.
  split; [|split; [|exact G]].
  - rewrite T.
    change (bemessungsregenJahre r)
      with (if 0.7 <=? versiegelungsgrad r then T100 else T30).
    destruct (0.7 <=? versiegelungsgrad r); split; congruence.
  - rewrite T.
    change (regenspende r)
      with (BERLIN_KOSTRA_at (jahre (if 0.7 <=? versiegelungsgrad r then T100 else T30))).
    destruct (0.7 <=? versiegelungsgrad r); split; intros E;
      try reflexivity; try discriminate E.
Qed.

(** X9.  The advisory that speaks of diverging methods is given for every
    review, also when the two discharges agree and the review comes from a
    retention volume between 50 and 200. *)
Theorem divergence_advisory_without_divergence (jetzt : string) (input : DIN1986Input) :
  let r := assess jetzt input in
  let ratio := spitzenabflussPINN r / spitzenabflussRational r in
  nachweisErforderlich r = true ->
  (0.3 <=? ratio) = true -> (ratio <=? 3.0) = true ->
  (50 <=? rueckhaltevolumen r) = true -> (rueckhaltevolumen r <? 200) = true ->
  nachweisStatus r = PRUEFUNG_ERFORDERLICH
  /\ In rec_divergenz (empfehlungen r).
Proof.
  intros r ratio Hreq Hlo Hhi H50 H200.
  assert (S : nachweisStatus r = PRUEFUNG_ERFORDERLICH).
  { change (nachweisStatus r)
      with (determineComplianceStatus (nachweisErforderlich r)
              (spitzenabflussRational r) (spitzenabflussPINN r) (rueckhaltevolumen r)).
    rewrite Hreq, Decision.required_cases. fold ratio.
    rewrite (Binary64.leb_ltb_false _ _ Hlo), (Binary64.leb_ltb_false _ _ Hhi).
    unfold byRetention, JS.lt.
    rewrite (Binary64.leb_ltb_false _ _ H50), H200. reflexivity. }
  split; [exact S|].
  apply (Recommendations.membership input
           (versiegelungsgrad r) (nachweisStatus r)). exact S.
Qed.

(** X10.  A site below the threshold gets no advisory on its status: its
    recommendations hold neither the divergence advisory nor the two
    retention advisories. *)
Theorem no_status_advisory_below_threshold (jetzt : string) (input : DIN1986Input) :
  let r := assess jetzt input in
  nachweisErforderlich r = false ->
  ~ In rec_divergenz (empfehlungen r)
  /\ ~ In rec_rueckhalt (empfehlungen r)
  /\ ~ In rec_rigole (empfehlungen r).
Proof.
  intros r Hreq.
  assert (S : nachweisStatus r = BESTANDEN).
  { change (nachweisStatus r)
      with (determineComplianceStatus (nachweisErforderlich r)
              (spitzenabflussRational r) (spitzenabflussPINN r) (rueckhaltevolumen r)).
    rewrite Hreq. reflexivity. }
  destruct (Recommendations.membership input
              (versiegelungsgrad r) (nachweisStatus r)) as [_ [_ [_ [_ [D [R G]]]]]].
  change (generateRecommendations input (versiegelungsgrad r) (nachweisStatus r))
    with (empfehlungen r) in D, R, G.
  rewrite D, R, G, S. repeat split; discriminate.
Qed.

(** X11.  A total area of zero is not rejected.  With a positive sealed
    area the sealed fraction is +infinity: the result applies the 100-year
    storm and recommends unsealing; the form, which guards the division,
    shows a fraction of 0 and the 30-year storm for the same input. *)
Theorem zero_total_area_gives_infinite_fraction (jetzt : string) (input : DIN1986Input) :
  let r := assess jetzt input in
  grundstuecksflaeche input = 0 ->
  (0 <? versiegelteFlaeche input) = true ->
  versiegelungsgrad r = infinity
  /\ bemessungsregenJahre r = T100
  /\ In rec_hoch (empfehlungen r)
  /\ CoPilotPage_versiegelungsgrad input = 0
  /\ CoPilotPage_bemessungsregen input = T30.
Proof.
  intros r Ht Hs.
  assert (V : versiegelungsgrad r = infinity).
  { change (versiegelungsgrad r)
      with (versiegelteFlaeche input / grundstuecksflaeche input).
    rewrite Ht. apply Order.div_pos_zero. exact Hs. }
  split; [exact V|]. split; [|split; [|split]].
  - change (bemessungsregenJahre r)
      with (if 0.7 <=? versiegelungsgrad r then T100 else T30).
    rewrite V. reflexivity.
  - change (empfehlungen r)
      with (generateRecommendations input (versiegelungsgrad r) (nachweisStatus r)).
    rewrite Recommendations.shape, V. left. reflexivity.
  - unfold CoPilotPage_versiegelungsgrad. rewrite Ht. reflexivity.
  - unfold CoPilotPage_bemessungsregen, CoPilotPage_versiegelungsgrad.
    rewrite Ht. reflexivity.
Qed.

(** X12.  Unless the total area is zero or negative, the form shows the
    sealed fraction and the storm the engine will apply. *)
Theorem form_fraction_matches_engine (jetzt : string) (input : DIN1986Input) :
  let r := assess jetzt input in
  (grundstuecksflaeche input <=? 0) = false ->
  CoPilotPage_versiegelungsgrad input = versiegelungsgrad r
  /\ CoPilotPage_bemessungsregen input = bemessungsregenJahre r.
Proof.
  intros r H. unfold CoPilotPage_bemessungsregen, CoPilotPage_versiegelungsgrad.
  rewrite H. split; reflexivity.
Qed.

End EngineMore.

(** On a site of 5000 m2, half of it sealed. *)
Lemma divergence_advisory_witness :
  let r := Sample.assess Sample.jetzt (Sample.site 5000 2500 50 SU) in
  let ratio := spitzenabflussPINN r / spitzenabflussRational r in
  nachweisErforderlich r = true
  /\ (0.3 <=? ratio) = true /\ (ratio <=? 3.0) = true
  /\ (50 <=? rueckhaltevolumen r) = true /\ (rueckhaltevolumen r <? 200) = true
  /\ In rec_divergenz (empfehlungen r).
Proof.
  repeat (split; [reflexivity|]).
  exact (proj2 (divergence_advisory_without_divergence
                  Sample.RUNOFF_impervious Sample.RUNOFF_pervious
                  Sample.computePeakRunoff Sample.computeWQv
                  Sample.KinematicWaveResult Sample.peakDischarge
                  Sample.computeKinematicWaveSolution Sample.numberToString
                  Sample.jetzt (Sample.site 5000 2500 50 SU)
                  eq_refl eq_refl eq_refl eq_refl eq_refl)).
Defined.

(** On a site with 600 m2 sealed. *)
Lemma no_status_advisory_witness :
  let r := Sample.assess Sample.jetzt (Sample.site 2000 600 50 SU) in
  nachweisErforderlich r = false
  /\ ~ In rec_divergenz (empfehlungen r)
  /\ ~ In rec_rueckhalt (empfehlungen r)
  /\ ~ In rec_rigole (empfehlungen r).
Proof.
  split; [reflexivity|].
  exact (no_status_advisory_below_threshold
           Sample.RUNOFF_impervious Sample.RUNOFF_pervious
           Sample.computePeakRunoff Sample.computeWQv
           Sample.KinematicWaveResult Sample.peakDischarge
           Sample.computeKinematicWaveSolution Sample.numberToString
           Sample.jetzt (Sample.site 2000 600 50 SU) eq_refl).
Defined.

(** On a site of total area 0 with 900 m2 sealed. *)
Lemma zero_total_area_witness :
  let input := Sample.site 0 900 50 SU in
  let r := Sample.assess Sample.jetzt input in
  grundstuecksflaeche input = 0
  /\ (0 <? versiegelteFlaeche input) = true
  /\ versiegelungsgrad r = infinity
  /\ bemessungsregenJahre r = T100
  /\ In rec_hoch (empfehlungen r)
  /\ CoPilotPage_versiegelungsgrad input = 0
  /\ CoPilotPage_bemessungsregen input = T30.
Proof.
  split; [reflexivity|]. split; [reflexivity|].
  exact (zero_total_area_gives_infinite_fraction
           Sample.RUNOFF_impervious Sample.RUNOFF_pervious
           Sample.computePeakRunoff Sample.computeWQv
           Sample.KinematicWaveResult Sample.peakDischarge
           Sample.computeKinematicWaveSolution Sample.numberToString
           Sample.jetzt (Sample.site 0 900 50 SU) eq_refl eq_refl).
Defined.

(** On the default site. *)
Lemma form_fraction_witness :
  let input := Sample.DEFAULT_INPUT in
  let r := Sample.assess Sample.jetzt input in
  (grundstuecksflaeche input <=? 0) = false
  /\ CoPilotPage_versiegelungsgrad input = versiegelungsgrad r
  /\ CoPilotPage_bemessungsregen input = bemessungsregenJahre r.
Proof.
  split; [reflexivity|].
  exact (form_fraction_matches_engine
           Sample.RUNOFF_impervious Sample.RUNOFF_pervious
           Sample.computePeakRunoff Sample.computeWQv
           Sample.KinematicWaveResult Sample.peakDischarge
           Sample.computeKinematicWaveSolution Sample.numberToString
           Sample.jetzt Sample.DEFAULT_INPUT eq_refl).
Defined.

(** ** The result view of the form *)

(** [statusConfig] of [ResultsView]: the banner of a status. *)
Record StatusConfig : Type := {
  css_class : string;
  icon : string;
  label : string
}.

Definition statusConfig (status : NachweisStatus) : StatusConfig :=
  match status with
  | BESTANDEN =>
      {| css_class := "pass"; icon := "✅"; label := "Nachweis erbracht" |}
  | NICHT_BESTANDEN =>
      {| css_class := "fail"; icon := "❌"; label := "Nachweis nicht erbracht" |}
  | PRUEFUNG_ERFORDERLICH =>
      {| css_class := "warning"; icon := "⚠️"; label := "Prüfung erforderlich" |}
  end.

(** [maxQ] and the widths of the two bars of the method comparison, the
    numbers in front of the percent sign. *)
Definition ResultsView_maxQ {K : Type} (result : DIN1986Result K) : number :=
  JS.Math_max (spitzenabflussRational result) (spitzenabflussPINN result).

Definition ResultsView_widthRational {K : Type} (result : DIN1986Result K) : number :=
  (spitzenabflussRational result / ResultsView_maxQ result) * 100.

Definition ResultsView_widthPINN {K : Type} (result : DIN1986Result K) : number :=
  (spitzenabflussPINN result / ResultsView_maxQ result) * 100.

Module View.

Lemma positive_is_no_zero (b : number) : (0 <? b) = true -> is_zero b = false.
Proof.
  intros H. apply Order.ltb_key in H. destruct H as [k0 [kb [K0 [Kb L]]]].
  unfold is_zero. rewrite FloatAxioms.eqb_spec. unfold SFeqb.
  rewrite Order.SFcompare_key, Kb.
  change (Prim2SF zero) with (Prim2SF 0). rewrite K0.
  apply Order.lex3_Lt in L. rewrite (Order.lex3_antisym k0 kb), L. reflexivity.
Qed.

Lemma Math_max_positive (a b : number) :
  (0 <? a) = true -> (0 <? b) = true ->
  JS.Math_max a b = if a <? b then b else a.
Proof.
  intros Ha Hb. unfold JS.Math_max, JS.is_pos_zero.
  destruct (Order.ltb_not_nan _ _ Ha) as [_ Na].
  destruct (Order.ltb_not_nan _ _ Hb) as [_ Nb].
  rewrite Na, Nb, (positive_is_no_zero b Hb). reflexivity.
Qed.

(** X13.  Of two discharges that are positive and finite, the larger one
    has a bar of exactly 100 percent: the kinematic-wave one when it
    exceeds the rational one, the rational one otherwise. *)
Theorem larger_discharge_fills_its_bar {K : Type} (result : DIN1986Result K) :
  (0 <? spitzenabflussRational result) = true ->
  (spitzenabflussRational result <? infinity) = true ->
  (0 <? spitzenabflussPINN result) = true ->
  (spitzenabflussPINN result <? infinity) = true ->
  if spitzenabflussRational result <? spitzenabflussPINN result
  then ResultsView_widthPINN result = 100
  else ResultsView_widthRational result = 100.
Proof.
  intros R0 Ri P0 Pi.
  unfold ResultsView_widthPINN, ResultsView_widthRational, ResultsView_maxQ.
  rewrite (Math_max_positive _ _ R0 P0).
  destruct (spitzenabflussRational result <? spitzenabflussPINN result).
  - rewrite (Order.div_self _ P0 Pi). reflexivity.
  - rewrite (Order.div_self _ R0 Ri). reflexivity.
Qed.

End View.

(** On the default site. *)
Lemma larger_discharge_witness :
  let r := Sample.assess Sample.jetzt Sample.DEFAULT_INPUT in
  (0 <? spitzenabflussRational r) = true
  /\ (spitzenabflussRational r <? infinity) = true
  /\ (0 <? spitzenabflussPINN r) = true
  /\ (spitzenabflussPINN r <? infinity) = true
  /\ (spitzenabflussRational r <? spitzenabflussPINN r) = true
  /\ ResultsView_widthPINN r = 100.
Proof.
  repeat (split; [reflexivity|]).
  exact (View.larger_discharge_fills_its_bar
           (Sample.assess Sample.jetzt Sample.DEFAULT_INPUT)
           eq_refl eq_refl eq_refl eq_refl).
Defined.

(** ** Texts

    A text is the sequence of the bytes of its UTF-8 encoding. *)

From Stdlib Require Import Ascii.

Module JSString.

(** The code of a byte of the UTF-8 text. *)
Definition code (a : ascii) : nat := nat_of_ascii a.

(** One-byte white space and line terminators: TAB, LF, VT, FF, CR, SP. *)
Definition space1 (a : ascii) : bool :=
  (Nat.leb 9 (code a) && Nat.leb (code a) 13) || Nat.eqb (code a) 32.

(** Last byte of U+2000 to U+200A, U+2028, U+2029 and U+202F, which start
    with E2 80. *)
Definition space_E2_80 (a : ascii) : bool :=
  (Nat.leb 128 (code a) && Nat.leb (code a) 138)
  || Nat.eqb (code a) 168 || Nat.eqb (code a) 169 || Nat.eqb (code a) 175.

(** White space of two bytes, U+00A0, and of three bytes: U+1680, those
    after E2 80, U+205F, U+3000 and U+FEFF. *)
Definition space2 (a b : ascii) : bool :=
  Nat.eqb (code a) 194 && Nat.eqb (code b) 160.

Definition space3 (a b c : ascii) : bool :=
  (Nat.eqb (code a) 225 && Nat.eqb (code b) 154 && Nat.eqb (code c) 128)
  || (Nat.eqb (code a) 226 && Nat.eqb (code b) 128 && space_E2_80 c)
  || (Nat.eqb (code a) 226 && Nat.eqb (code b) 129 && Nat.eqb (code c) 159)
  || (Nat.eqb (code a) 227 && Nat.eqb (code b) 128 && Nat.eqb (code c) 128)
  || (Nat.eqb (code a) 239 && Nat.eqb (code b) 187 && Nat.eqb (code c) 191).

(** The text after the white space or line terminator at its head, if it
    starts with one. *)
Definition skip_space (l : list ascii) : option (list ascii) :=
  match l with
  | a :: r =>
      if space1 a then Some r
      else match r with
           | b :: r1 =>
               if space2 a b then Some r1
               else match r1 with
                    | c :: r2 => if space3 a b c then Some r2 else None
                    | [] => None
                    end
           | [] => None
           end
  | [] => None
  end.

(** The same at the end of the text, read backwards. *)
Definition skip_space_back (l : list ascii) : option (list ascii) :=
  match l with
  | a :: r =>
      if space1 a then Some r
      else match r with
           | b :: r1 =>
               if space2 b a then Some r1
               else match r1 with
                    | c :: r2 => if space3 c b a then Some r2 else None
                    | [] => None
                    end
           | [] => None
           end
  | [] => None
  end.

Fixpoint drop_spaces (skip : list ascii -> option (list ascii))
    (fuel : nat) (l : list ascii) : list ascii :=
  match fuel with
  | O => l
  | S n => match skip l with
           | Some r => drop_spaces skip n r
           | None => l
           end
  end.

(** [String.prototype.trim]: every removal shortens the text, so its length
    is fuel enough. *)
Definition trim (s : string) : string :=
  let l := list_ascii_of_string s in
  let l := drop_spaces skip_space (List.length l) l in
  let l := rev l in
  string_of_list_ascii (rev (drop_spaces skip_space_back (List.length l) l)).

(** A byte no white space starts with, and one none ends with. *)
Definition starts_space (a : ascii) : bool :=
  space1 a || Nat.eqb (code a) 194 || Nat.eqb (code a) 225
  || Nat.eqb (code a) 226 || Nat.eqb (code a) 227 || Nat.eqb (code a) 239.

Definition ends_space (a : ascii) : bool :=
  space1 a || Nat.eqb (code a) 160 || Nat.eqb (code a) 128 || space_E2_80 a
  || Nat.eqb (code a) 159 || Nat.eqb (code a) 191.

Definition nl : string := String (ascii_of_nat 10) EmptyString.

Lemma list_ascii_of_string_app (s t : string) :
  list_ascii_of_string (s ++ t)%string = (list_ascii_of_string s ++ list_ascii_of_string t)%list.
Proof.
  induction s as [|a s IH]; [reflexivity|]. cbn. rewrite IH. reflexivity.
Qed.

Lemma skip_space_None (a : ascii) (r : list ascii) :
  starts_space a = false -> skip_space (a :: r) = None.
Proof.
  unfold starts_space. intros H.
  destruct (space1 a) eqn:S1; [discriminate H|]. cbn [orb] in H.
  repeat (apply orb_false_elim in H; destruct H as [H ?]).
  unfold skip_space, space2, space3. rewrite S1.
  destruct r as [|b [|c r2]]; try reflexivity;
    repeat match goal with E : Nat.eqb _ _ = false |- _ => rewrite E; clear E end;
    reflexivity.
Qed.

Lemma skip_space_back_None (a : ascii) (r : list ascii) :
  ends_space a = false -> skip_space_back (a :: r) = None.
Proof.
  unfold ends_space. intros H.
  destruct (space1 a) eqn:S1; [discriminate H|]. cbn [orb] in H.
  destruct (space_E2_80 a) eqn:S2;
    [rewrite !orb_true_r in H; discriminate H|]. rewrite orb_false_r in H.
  repeat (apply orb_false_elim in H; destruct H as [H ?]).
  unfold skip_space_back, space2, space3. rewrite S1.
  destruct r as [|b [|c r2]]; try reflexivity;
    repeat match goal with E : _ = false |- _ => rewrite E; clear E end;
    rewrite ?andb_false_r; reflexivity.
Qed.

Lemma drop_front (first : ascii) (m : list ascii) (fuel : nat) :
  starts_space first = false ->
  drop_spaces skip_space (S (S fuel)) (ascii_of_nat 10 :: first :: m) = first :: m.
Proof.
  intros H. cbn [drop_spaces].
  change (skip_space (ascii_of_nat 10 :: first :: m)) with (Some (first :: m)).
  cbv iota. rewrite (skip_space_None first m H). reflexivity.
Qed.

Lemma drop_back (last : ascii) (m : list ascii) (fuel : nat) :
  ends_space last = false ->
  drop_spaces skip_space_back (S (S fuel)) (ascii_of_nat 10 :: last :: m) = last :: m.
Proof.
  intros H. cbn [drop_spaces].
  change (skip_space_back (ascii_of_nat 10 :: last :: m)) with (Some (last :: m)).
  cbv iota. rewrite (skip_space_back_None last m H). reflexivity.
Qed.

(** A text between two line feeds that neither starts nor ends with white
    space is what [trim] leaves. *)
Lemma trim_between_newlines (first last : ascii) (middle : string) :
  starts_space first = false -> ends_space last = false ->
  trim (nl ++ String first (middle ++ String last EmptyString) ++ nl)%string
  = String first (middle ++ String last EmptyString)%string.
Proof.
  intros Hf Hl. unfold trim.
  set (body := String first (middle ++ String last EmptyString)%string).
  assert (B : list_ascii_of_string body
              = (first :: list_ascii_of_string middle ++ [last])%list).
  { unfold body. cbn. rewrite list_ascii_of_string_app. reflexivity. }
  rewrite !list_ascii_of_string_app, B.
  set (m := list_ascii_of_string middle).
  change (list_ascii_of_string nl) with [ascii_of_nat 10].
  change ([ascii_of_nat 10] ++ (first :: m ++ [last]) ++ [ascii_of_nat 10])%list
    with (ascii_of_nat 10 :: first :: (m ++ [last]) ++ [ascii_of_nat 10])%list.
  cbn [List.length]. rewrite (drop_front first _ _ Hf).
  change (first :: (m ++ [last]) ++ [ascii_of_nat 10])%list
    with ((first :: m ++ [last]) ++ [ascii_of_nat 10])%list.
  rewrite rev_unit.
  change (first :: m ++ [last])%list with ((first :: m) ++ [last])%list.
  rewrite rev_unit. cbn [List.length]. rewrite (drop_back last _ _ Hl).
  change (last :: rev (first :: m)) with (rev [last] ++ rev (first :: m))%list.
  rewrite <- rev_app_distr, rev_involutive.
  change ((first :: m) ++ [last])%list with (first :: m ++ [last])%list.
  subst m. rewrite <- B. apply string_of_list_ascii_of_string.
Qed.

End JSString.

(** ** The text report and the PDF report *)

From Stdlib Require Uint63.

(** The number of entries of an array, as a number. *)
Definition number_of_nat (n : nat) : number :=
  of_uint63 (Uint63.of_Z (Z.of_nat n)).

(** The decimal text of the return period, the numbers 30 and 100 in a
    template literal. *)
Definition jahreText (t : Bemessungsregen) : string :=
  match t with T30 => "30" | T100 => "100" end.

(** The calls the report generator makes on the document, in the names of
    the library; a document is the sequence of the calls made on it. *)
Module PDF.

Record TextOptions : Type := {
  align : string;
  angle : option number
}.

Inductive Op : Type :=
  | setFillColor (r g b : number)
  | rect (x y w h : number) (style : string)
  | roundedRect (x y w h rx ry : number) (style : string)
  | setTextColor (r g b : number)
  | setDrawColor (r g b : number)
  | setFontSize (size : number)
  | setFont (fontName fontStyle : string)
  | text (content : list string) (x y : number) (options : option TextOptions)
  | line (x1 y1 x2 y2 : number)
  | saveGraphicsState
  | setGState (opacity : number)
  | restoreGraphicsState.

Definition Doc : Type := list Op.

(** The font a text is measured in by [splitTextToSize]. *)
Record Font : Type := {
  fontName : string;
  fontStyle : string;
  fontSize : number
}.

(** The texts a document prints, in the order of the calls. *)
Definition texts (doc : Doc) : list (list string) :=
  flat_map (fun op => match op with text c _ _ _ => [c] | _ => [] end) doc.

(** The filled rectangles a document draws. *)
Definition rects (doc : Doc) : list (number * number * number * number) :=
  flat_map (fun op => match op with rect x y w h _ => [(x, y, w, h)] | _ => [] end) doc.

End PDF.

Definition drawSectionHeader
    (doc : PDF.Doc) (title : string) (y margin width : number) : PDF.Doc * number :=
  let doc := (doc ++ [PDF.setFillColor 240 244 248;
                      PDF.rect margin y width 8 "F";
                      PDF.setFontSize 11;
                      PDF.setFont "helvetica" "bold";
                      PDF.setTextColor 10 22 40;
                      PDF.text [title] (margin + 3) (y + 5.5) None])%list in
  (doc, y + 10).

(** The body of the loop of [drawDataTable] for row [i]. *)
Definition drawDataRow
    (doc : PDF.Doc) (i : nat) (row : string * string)
    (y margin width colSplit : number) : PDF.Doc :=
  let rowY := y + number_of_nat i * 6 in
  let doc :=
    if Nat.eqb (i mod 2) 0
    then (doc ++ [PDF.setFillColor 248 250 252;
                  PDF.rect margin (rowY - 3.5) width 6 "F"])%list
    else doc in
  (doc ++ [PDF.setFont "helvetica" "normal";
           PDF.setTextColor 60 60 60;
           PDF.text [fst row] (margin + 3) rowY None;
           PDF.setFont "helvetica" "bold";
           PDF.setTextColor 10 22 40;
           PDF.text [snd row] (margin + colSplit) rowY None])%list.

(** The loop from row [i] on. *)
Fixpoint drawDataRows
    (doc : PDF.Doc) (i : nat) (rows : list (string * string))
    (y margin width colSplit : number) : PDF.Doc :=
  match rows with
  | [] => doc
  | row :: rest =>
      drawDataRows (drawDataRow doc i row y margin width colSplit) (S i) rest
        y margin width colSplit
  end.

(** The rows are pairs of a label and a value, as at both calls. *)
Definition drawDataTable
    (doc : PDF.Doc) (data : list (string * string)) (y margin width : number)
    : PDF.Doc * number :=
  let colSplit := width * 0.6 in
  let doc := (doc ++ [PDF.setFontSize 9])%list in
  let doc := drawDataRows doc 0 data y margin width colSplit in
  (doc, y + number_of_nat (List.length data) * 6).

Definition statusColors (status : NachweisStatus) : number * number * number :=
  match status with
  | BESTANDEN => (34, 197, 94)
  | NICHT_BESTANDEN => (239, 68, 68)
  | PRUEFUNG_ERFORDERLICH => (245, 158, 11)
  end.

Definition statusLabels (status : NachweisStatus) : string :=
  match status with
  | BESTANDEN => "NACHWEIS ERBRACHT"
  | NICHT_BESTANDEN => "NACHWEIS NICHT ERBRACHT"
  | PRUEFUNG_ERFORDERLICH => "PRÜFUNG ERFORDERLICH"
  end.

(** The four lines of the footer. *)
Definition disclaimer : list string :=
  [ "HAFTUNGSAUSSCHLUSS: Dieses Dokument ist ein automatisch erstellter Entwurf.";
    "Es ersetzt nicht die Prüfung und Stempelung durch einen nach §65 BauO Bln";
    "bauvorlageberechtigten Ingenieur. Berechnungen basieren auf vereinfachten";
    "Verfahren (Rational Method + Kinematic Wave) und KOSTRA-DWD 2020 Daten." ]%string.

(** [statusLabel] of [generateComplianceText]. *)
Definition statusLabel_text (status : NachweisStatus) : string :=
  match status with
  | BESTANDEN => "✅ Nachweis erbracht"
  | NICHT_BESTANDEN => "❌ Nachweis nicht erbracht"
  | PRUEFUNG_ERFORDERLICH => "⚠️ Prüfung erforderlich"
  end.

Section Reports.

(** The result of the kinematic-wave solver with the three fields the
    reports print. *)
Variable KinematicWaveResult : Type.
Variable peakDischarge timeToPeak equilibriumDepth : KinematicWaveResult -> number.

(** [Number.prototype.toFixed] and, for the ISO time stamp of a result,
    [new Date(...).toLocaleDateString] in the de-DE locale with numeric
    year and two-digit month and day: both of the runtime. *)
Variable toFixed : number -> nat -> string.
Variable toLocaleDateString : string -> string.

(** [doc.internal.pageSize.getWidth()] of a portrait A4 document in mm and
    [doc.splitTextToSize] in the font set when it is called: both of the
    PDF library. *)
Variable pageWidth : number.
Variable splitTextToSize : PDF.Font -> string -> number -> list string.

Definition reportLines
    (result : DIN1986Result KinematicWaveResult) (projectName : string)
    : list string :=
  let dateStr := toLocaleDateString (zeitstempel result) in
  let statusLabel := statusLabel_text (nachweisStatus result) in
  let nl := JSString.nl in
  [  "ÜBERFLUTUNGSNACHWEIS NACH DIN 1986-100";
    "══════════════════════════════════════";
    "ENTWURF — Freigabe durch Bauvorlageberechtigten erforderlich";
    EmptyString;
    "Projekt: " ++ projectName;
    "Datum: " ++ dateStr;
    "Erstellt mit: FloodPilot v1.0";
    EmptyString;
    "1. STANDORTDATEN";
    "   Grundstücksfläche:        " ++ toFixed (abflusswirksameFlaeche result) 0 ++ " m² (abflusswirksam)";
    "   Versiegelungsgrad:        " ++ toFixed (versiegelungsgrad result * 100) 1 ++ "%";
    "   Bemessungsregen:          T=" ++ jahreText (bemessungsregenJahre result) ++ "a";
    EmptyString;
    "2. BERECHNUNGSERGEBNISSE";
    "   Abflussbeiwert Ψ:         " ++ toFixed (abflussbeiwert result) 3;
    "   Regenspende (r₁₅):       " ++ toFixed (regenspende result) 0 ++ " mm/hr";
    "   ";
    "   Spitzenabfluss (Rational): " ++ toFixed (spitzenabflussRational result) 2 ++ " L/s";
    "   Spitzenabfluss (PINN/KW):  " ++ toFixed (spitzenabflussPINN result) 2 ++ " L/s";
    "   ";
    "   Rückhaltevolumen:          " ++ toFixed (rueckhaltevolumen result) 1 ++ " m³";
    "   ";
    "   Kinetische Welle:";
    "     Spitzenabfluss:          " ++ toFixed (peakDischarge (kinematischeWelle result)) 2 ++ " L/s";
    "     Anstiegszeit:            " ++ toFixed (timeToPeak (kinematischeWelle result)) 1 ++ " min";
    "     Gleichgewichtstiefe:     " ++ toFixed (equilibriumDepth (kinematischeWelle result)) 1 ++ " mm";
    EmptyString;
    "3. ERGEBNIS";
    "   " ++ statusLabel;
    EmptyString;
    "4. EMPFEHLUNGEN";
    String.concat nl (map (fun r => "   • " ++ r) (empfehlungen result));
    EmptyString;
    "══════════════════════════════════════";
    "HAFTUNGSAUSSCHLUSS: Dieses Dokument ist ein automatisch erstellter";
    "Entwurf. Es ersetzt nicht die Prüfung und Stempelung durch einen";
    "nach §65 BauO Bln bauvorlageberechtigten Ingenieur." ]%string.

(** The template literal is a line feed, the lines above and a line feed. *)
Definition generateComplianceText
    (result : DIN1986Result KinematicWaveResult) (projectName : string) : string :=
  JSString.trim
    (JSString.nl ++ String.concat JSString.nl (reportLines result projectName)
     ++ JSString.nl)%string.

Definition siteData (result : DIN1986Result KinematicWaveResult)
    : list (string * string) :=
  [ ("Grundstücksfläche (gesamt)", toFixed (abflusswirksameFlaeche result) 0 ++ " m²");
    ("Versiegelungsgrad", toFixed (versiegelungsgrad result * 100) 1 ++ " %");
    ("Abflusswirksame Fläche", toFixed (abflusswirksameFlaeche result) 0 ++ " m²");
    ("Bemessungsregen", "T = " ++ jahreText (bemessungsregenJahre result) ++ " a");
    ("Regenspende (r₁₅)", toFixed (regenspende result) 0 ++ " mm/hr") ]%string.

Definition calcData (result : DIN1986Result KinematicWaveResult)
    : list (string * string) :=
  [ ("Abflussbeiwert Ψ (gewichtet)", toFixed (abflussbeiwert result) 3);
    ("Spitzenabfluss Q (Rational)", toFixed (spitzenabflussRational result) 2 ++ " L/s");
    ("Spitzenabfluss Q (Kinematische Welle)", toFixed (spitzenabflussPINN result) 2 ++ " L/s");
    ("Anstiegszeit", toFixed (timeToPeak (kinematischeWelle result)) 1 ++ " min");
    ("Gleichgewichtstiefe", toFixed (equilibriumDepth (kinematischeWelle result)) 1 ++ " mm");
    ("Rückhaltevolumen (erf.)", toFixed (rueckhaltevolumen result) 1 ++ " m³") ]%string.

(** The verdict of the method comparison note. *)
Definition ratioVerdict (ratio : number) : string :=
  if JS.gt ratio 0.5 && JS.lt ratio 2.0
  then "gute Übereinstimmung" else "Prüfung empfohlen".

Definition ratioNote (result : DIN1986Result KinematicWaveResult) : string :=
  let ratio := spitzenabflussPINN result / spitzenabflussRational result in
  ("Verhältnis KW/Rational: " ++ toFixed ratio 2 ++ " — " ++ ratioVerdict ratio)%string.

(** The loop over the recommendations. *)
Fixpoint drawRecommendations
    (doc : PDF.Doc) (recs : list string) (y margin contentWidth : number)
    : PDF.Doc * number :=
  match recs with
  | [] => (doc, y)
  | rec :: rest =>
      let font := {| PDF.fontName := "helvetica"; PDF.fontStyle := "normal";
                     PDF.fontSize := 9 |} in
      let lines := splitTextToSize font ("• " ++ rec)%string (contentWidth - 5) in
      let doc := (doc ++ [PDF.text lines (margin + 3) y None])%list in
      drawRecommendations doc rest
        (y + (number_of_nat (List.length lines) * 4 + 2)) margin contentWidth
  end.

(** The loop over the lines of the footer. *)
Fixpoint drawDisclaimer
    (doc : PDF.Doc) (lines : list string) (y margin : number) : PDF.Doc * number :=
  match lines with
  | [] => (doc, y)
  | l :: rest =>
      drawDisclaimer (doc ++ [PDF.text [l] margin y None])%list rest (y + 3.5) margin
  end.

Definition generateDIN1986PDF
    (result : DIN1986Result KinematicWaveResult) (projectName : string) : PDF.Doc :=
  let doc : PDF.Doc := [] in
  let margin := 20 in
  let contentWidth := pageWidth - 2 * margin in
  let y := margin in
  (* header *)
  let doc := (doc ++ [PDF.setFillColor 10 22 40;
                      PDF.rect 0 0 pageWidth 45 "F";
                      PDF.setTextColor 255 255 255;
                      PDF.setFontSize 18;
                      PDF.setFont "helvetica" "bold";
                      PDF.text ["ÜBERFLUTUNGSNACHWEIS"%string] margin 20 None;
                      PDF.setFontSize 11;
                      PDF.setFont "helvetica" "normal";
                      PDF.text ["nach DIN 1986-100 §14.9.2"%string] margin 28 None;
                      PDF.setFontSize 9;
                      PDF.setTextColor 200 200 200;
                      PDF.text [("Projekt: " ++ projectName)%string] margin 36 None])%list in
  let dateStr := toLocaleDateString (zeitstempel result) in
  let doc := (doc ++ [PDF.text [("Datum: " ++ dateStr)%string]
                        (pageWidth - margin - 30) 36 None])%list in
  (* draft watermark *)
  let doc := (doc ++ [PDF.setTextColor 255 80 80;
                      PDF.setFontSize 48;
                      PDF.setFont "helvetica" "bold";
                      PDF.saveGraphicsState;
                      PDF.setGState 0.08;
                      PDF.text ["ENTWURF"%string] (pageWidth / 2) 150
                        (Some {| PDF.align := "center"; PDF.angle := Some 45 |});
                      PDF.restoreGraphicsState])%list in
  let y := 55 in
  let doc := (doc ++ [PDF.setTextColor 30 30 30])%list in
  (* section 1 *)
  let '(doc, y) := drawSectionHeader doc "1. Standortdaten" y margin contentWidth in
  let y := y + 2 in
  let '(doc, y) := drawDataTable doc (siteData result) y margin contentWidth in
  let y := y + 4 in
  let doc := (doc ++ [PDF.setFontSize 9;
                      PDF.setFont "helvetica" "italic";
                      PDF.setTextColor 100 100 100])%list in
  let wrappedReason :=
    splitTextToSize {| PDF.fontName := "helvetica"; PDF.fontStyle := "italic";
                       PDF.fontSize := 9 |}
      (begruendung result) contentWidth in
  let doc := (doc ++ [PDF.text wrappedReason margin y None])%list in
  let y := y + (number_of_nat (List.length wrappedReason) * 4 + 6) in
  (* section 2 *)
  let doc := (doc ++ [PDF.setTextColor 30 30 30])%list in
  let '(doc, y) :=
    drawSectionHeader doc "2. Berechnungsergebnisse" y margin contentWidth in
  let y := y + 2 in
  let '(doc, y) := drawDataTable doc (calcData result) y margin contentWidth in
  let y := y + 4 in
  let doc := (doc ++ [PDF.setFontSize 8;
                      PDF.setFont "helvetica" "italic";
                      PDF.setTextColor 100 100 100;
                      PDF.text [ratioNote result] margin y None])%list in
  let y := y + 8 in
  (* section 3 *)
  let doc := (doc ++ [PDF.setTextColor 30 30 30])%list in
  let '(doc, y) := drawSectionHeader doc "3. Ergebnis" y margin contentWidth in
  let y := y + 4 in
  let '(r, g, b) := statusColors (nachweisStatus result) in
  let doc := (doc ++ [PDF.setFillColor r g b;
                      PDF.roundedRect margin y contentWidth 12 2 2 "F";
                      PDF.setTextColor 255 255 255;
                      PDF.setFontSize 12;
                      PDF.setFont "helvetica" "bold";
                      PDF.text [statusLabels (nachweisStatus result)]
                        (pageWidth / 2) (y + 8)
                        (Some {| PDF.align := "center"; PDF.angle := None |})])%list in
  let y := y + 18 in
  (* section 4 *)
  let doc := (doc ++ [PDF.setTextColor 30 30 30])%list in
  let '(doc, y) := drawSectionHeader doc "4. Empfehlungen" y margin contentWidth in
  let y := y + 2 in
  let doc := (doc ++ [PDF.setFontSize 9;
                      PDF.setFont "helvetica" "normal"])%list in
  let '(doc, y) :=
    drawRecommendations doc (empfehlungen result) y margin contentWidth in
  (* footer *)
  let y := JS.Math_max (y + 10) 240 in
  let doc := (doc ++ [PDF.setDrawColor 200 200 200;
                      PDF.line margin y (pageWidth - margin) y])%list in
  let y := y + 6 in
  let doc := (doc ++ [PDF.setFontSize 7;
                      PDF.setTextColor 130 130 130;
                      PDF.setFont "helvetica" "italic"])%list in
  let '(doc, y) := drawDisclaimer doc disclaimer y margin in
  let y := y + 4 in
  (doc ++ [PDF.setFont "helvetica" "bold";
           PDF.setTextColor 59 130 246;
           PDF.text ["Erstellt mit FloodPilot.de — KI-gestützter Co-Pilot für Bauingenieure"%string]
             margin y None])%list.

End Reports.

(** ** Properties of the reports *)

Module Text.

Lemma append_assoc (a b c : string) : ((a ++ b) ++ c = a ++ (b ++ c))%string.
Proof.
  induction a as [|x a IH]; [reflexivity|]. cbn. rewrite IH. reflexivity.
Qed.

(** Lines joined by line feeds start as the first line does and end as
    the last one does. *)
Lemma concat_ends (x : string) (mids : list string) (l : string) (z : ascii) :
  exists m,
    String.concat JSString.nl (x :: mids ++ [(l ++ String z EmptyString)%string])
    = (x ++ m ++ String z EmptyString)%string.
Proof.
  revert x. induction mids as [|y mids IH]; intros x.
  - exists (JSString.nl ++ l)%string. cbn [app String.concat].
    rewrite append_assoc. reflexivity.
  - destruct (IH y) as [m E]. exists (JSString.nl ++ y ++ m)%string.
    change (String.concat JSString.nl
              (x :: (y :: mids) ++ [(l ++ String z EmptyString)%string]))
      with (x ++ JSString.nl
            ++ String.concat JSString.nl
                 (y :: mids ++ [(l ++ String z EmptyString)%string]))%string.
    rewrite E, !append_assoc. reflexivity.
Qed.

End Text.

Module Table.

(** The cells of a table, row by row. *)
Definition cells (data : list (string * string)) : list (list string) :=
  flat_map (fun row => [[fst row]; [snd row]]) data.

(** The background of row [i]. *)
Definition stripe (y margin width : number) (i : nat)
    : number * number * number * number :=
  (margin, y + number_of_nat i * 6 - 3.5, width, 6).

Definition is_even (i : nat) : bool := Nat.eqb (i mod 2) 0.

Lemma texts_app (a b : PDF.Doc) : PDF.texts (a ++ b) = PDF.texts a ++ PDF.texts b.
Proof. apply flat_map_app. Qed.

Lemma rects_app (a b : PDF.Doc) : PDF.rects (a ++ b) = PDF.rects a ++ PDF.rects b.
Proof. apply flat_map_app. Qed.

Lemma rows_texts (rows : list (string * string)) :
  forall (doc : PDF.Doc) (i : nat) (y margin width colSplit : number),
  PDF.texts (drawDataRows doc i rows y margin width colSplit)
  = PDF.texts doc ++ cells rows.
Proof.
  induction rows as [|row rest IH]; intros doc i y margin width colSplit.
  - cbn. rewrite app_nil_r. reflexivity.
  - cbn [drawDataRows]. rewrite IH. unfold drawDataRow.
    destruct (Nat.eqb (i mod 2) 0); rewrite !texts_app; cbn;
      rewrite ?app_nil_r, <- ?app_assoc; reflexivity.
Qed.

Lemma rows_rects (rows : list (string * string)) :
  forall (doc : PDF.Doc) (i : nat) (y margin width colSplit : number),
  PDF.rects (drawDataRows doc i rows y margin width colSplit)
  = PDF.rects doc
    ++ map (stripe y margin width) (filter is_even (seq i (List.length rows))).
Proof.
  induction rows as [|row rest IH]; intros doc i y margin width colSplit.
  - cbn. rewrite app_nil_r. reflexivity.
  - cbn [drawDataRows List.length seq filter]. rewrite IH.
    unfold drawDataRow, is_even at 2.
    destruct (Nat.eqb (i mod 2) 0); rewrite !rects_app; cbn;
      rewrite ?app_nil_r, <- ?app_assoc; reflexivity.
Qed.

Lemma rows_grow (rows : list (string * string)) :
  forall (doc : PDF.Doc) (i : nat) (y margin width colSplit : number),
  exists ops, drawDataRows doc i rows y margin width colSplit = doc ++ ops.
Proof.
  induction rows as [|row rest IH]; intros doc i y margin width colSplit.
  - exists []. cbn. rewrite app_nil_r. reflexivity.
  - cbn [drawDataRows].
    destruct (IH (drawDataRow doc i row y margin width colSplit) (S i)
                y margin width colSplit) as [ops E].
    rewrite E. unfold drawDataRow.
    destruct (Nat.eqb (i mod 2) 0); rewrite <- !app_assoc; eexists; reflexivity.
Qed.

(** X14.  A table keeps what is on the document and prints every cell
    once, label before value, row by row; the rows 0, 2, 4 and so on, and
    only these, get a background, six units high and 3.5 above the base
    line of the row; the cursor moves down by six units for each row. *)
Theorem table_prints_each_cell_once
    (doc : PDF.Doc) (data : list (string * string)) (y margin width : number) :
  (exists ops, fst (drawDataTable doc data y margin width) = doc ++ ops)
  /\ PDF.texts (fst (drawDataTable doc data y margin width))
     = PDF.texts doc ++ cells data
  /\ PDF.rects (fst (drawDataTable doc data y margin width))
     = PDF.rects doc
       ++ map (stripe y margin width) (filter is_even (seq 0 (List.length data)))
  /\ snd (drawDataTable doc data y margin width)
     = y + number_of_nat (List.length data) * 6.
Proof.
  unfold drawDataTable. cbn [fst snd]. split; [|split; [|split]].
  - destruct (rows_grow data (doc ++ [PDF.setFontSize 9]) 0 y margin width
                (width * 0.6)) as [ops E].
    rewrite E, <- app_assoc. eexists. reflexivity.
  - rewrite rows_texts, texts_app. cbn. rewrite app_nil_r. reflexivity.
  - rewrite rows_rects, rects_app. cbn. rewrite app_nil_r. reflexivity.
  - reflexivity.
Qed.

End Table.

Section ReportProperties.

Variable RUNOFF_impervious RUNOFF_pervious : number.
Variable computePeakRunoff : number -> number -> number -> number.
Variable computeWQv : number -> number -> number -> number.
Variable KinematicWaveResult : Type.
Variable peakDischarge timeToPeak equilibriumDepth : KinematicWaveResult -> number.
Variable computeKinematicWaveSolution : KW.Params -> KinematicWaveResult.
Variable numberToString : number -> string.
Variable toFixed : number -> nat -> string.
Variable toLocaleDateString : string -> string.
Variable pageWidth : number.
Variable splitTextToSize : PDF.Font -> string -> number -> list string.

Let assess : string -> DIN1986Input -> DIN1986Result KinematicWaveResult :=
  performDIN1986Assessment RUNOFF_impervious RUNOFF_pervious
    computePeakRunoff computeWQv KinematicWaveResult peakDischarge
    computeKinematicWaveSolution numberToString.

Let report : DIN1986Result KinematicWaveResult -> string -> string :=
  generateComplianceText KinematicWaveResult peakDischarge timeToPeak
    equilibriumDepth toFixed toLocaleDateString.

Let pdf : DIN1986Result KinematicWaveResult -> string -> PDF.Doc :=
  generateDIN1986PDF KinematicWaveResult timeToPeak equilibriumDepth toFixed
    toLocaleDateString pageWidth splitTextToSize.

(** X15.  The text report is the lines of its template joined by line feeds:
    [trim] takes the line feed before the title and the one after the last
    sentence and nothing else, whatever the project name, the formatted
    numbers and the recommendations are. *)
Theorem report_is_its_lines
    (result : DIN1986Result KinematicWaveResult) (projectName : string) :
  report result projectName
  = String.concat JSString.nl
      (reportLines KinematicWaveResult peakDischarge timeToPeak equilibriumDepth
         toFixed toLocaleDateString result projectName).
Proof.
  unfold report, generateComplianceText.
  set (ls := reportLines _ _ _ _ _ _ result projectName).
  assert (S : exists x mids l,
            ls = (String (ascii_of_nat 195) x)
                 :: mids ++ [(l ++ String (ascii_of_nat 46) EmptyString)%string]).
  { exists (match nth 0 ls EmptyString with String _ t => t | EmptyString => EmptyString end),
           (removelast (tl ls)),
           (let la := last ls EmptyString in substring 0 (String.length la - 1) la).
    reflexivity. }
  destruct S as [x [mids [l S]]]. rewrite S.
  destruct (Text.concat_ends (String (ascii_of_nat 195) x) mids l (ascii_of_nat 46))
    as [m E].
  rewrite E.
  assert (B : (String (ascii_of_nat 195) x ++ m ++ String (ascii_of_nat 46) EmptyString
               = String (ascii_of_nat 195)
                   ((x ++ m) ++ String (ascii_of_nat 46) EmptyString))%string).
  { cbn [append]. rewrite Text.append_assoc. reflexivity. }
  rewrite B.
  apply (JSString.trim_between_newlines (ascii_of_nat 195) (ascii_of_nat 46) (x ++ m));
    reflexivity.
Qed.



(** X17.  When the PDF report notes a good agreement of the two methods, the
    engine has not found them diverging: the status of a site that needs
    the verification then comes from the retention volume alone. *)
Theorem good_agreement_note_means_no_divergence
    (jetzt : string) (input : DIN1986Input) :
  let r := assess jetzt input in
  let ratio := spitzenabflussPINN r / spitzenabflussRational r in
  ratioVerdict ratio = "gute Übereinstimmung"%string ->
  (ratio <? 0.3) || (3.0 <? ratio) = false
  /\ (nachweisErforderlich r = true ->
      nachweisStatus r = byRetention (rueckhaltevolumen r)).
Proof.
  intros r ratio V. unfold ratioVerdict, JS.gt, JS.lt in V.
  destruct (0.5 <? ratio) eqn:L; [|discriminate V].
  destruct (ratio <? 2.0) eqn:U; [|discriminate V].
  assert (D : (ratio <? 0.3) || (3.0 <? ratio) = false).
  { apply orb_false_intro; apply Binary64.leb_ltb_false; apply Binary64.ltb_leb.
    - apply (Order.leb_ltb_trans 0.3 0.5 ratio); [reflexivity | exact L].
    - apply (Order.ltb_leb_trans ratio 2.0 3.0); [exact U | reflexivity]. }
  split; [exact D|]. intros Hreq.
  change (nachweisStatus r)
    with (determineComplianceStatus (nachweisErforderlich r)
            (spitzenabflussRational r) (spitzenabflussPINN r) (rueckhaltevolumen r)).
  rewrite Hreq, Decision.required_cases. fold ratio. rewrite D. reflexivity.
Qed.

(** X18.  The PDF report does not use the thresholds of the engine: for a ratio
    from 0.3 to 0.5 or from 2.0 to 3.0 the PDF report advises a review of
    the methods while the engine takes them to agree and decides on the
    retention volume alone. *)
Theorem pdf_advises_review_where_engine_sees_agreement
    (jetzt : string) (input : DIN1986Input) :
  let r := assess jetzt input in
  let ratio := spitzenabflussPINN r / spitzenabflussRational r in
  nachweisErforderlich r = true ->
  ((0.3 <=? ratio) && (ratio <=? 0.5)) || ((2.0 <=? ratio) && (ratio <=? 3.0)) = true ->
  ratioVerdict ratio = "Prüfung empfohlen"%string
  /\ nachweisStatus r = byRetention (rueckhaltevolumen r).
Proof.
  intros r ratio Hreq B.
  assert (F : (0.5 <? ratio) && (ratio <? 2.0) = false
              /\ (ratio <? 0.3) || (3.0 <? ratio) = false).
  { apply orb_prop in B. destruct B as [B|B]; apply andb_prop in B;
      destruct B as [L U].
    - split.
      + rewrite (Binary64.leb_ltb_false _ _ U). reflexivity.
      + apply orb_false_intro; apply Binary64.leb_ltb_false; [exact L|].
        apply (Order.leb_trans ratio 0.5 3.0); [exact U | reflexivity].
    - split.
      + rewrite (Binary64.leb_ltb_false _ _ L). apply andb_false_r.
      + apply orb_false_intro; apply Binary64.leb_ltb_false; [|exact U].
        apply (Order.leb_trans 0.3 2.0 ratio); [reflexivity | exact L]. }
  destruct F as [V D]. split.
  - unfold ratioVerdict, JS.gt, JS.lt. rewrite V. reflexivity.
  - change (nachweisStatus r)
      with (determineComplianceStatus (nachweisErforderlich r)
              (spitzenabflussRational r) (spitzenabflussPINN r) (rueckhaltevolumen r)).
    rewrite Hreq, Decision.required_cases. fold ratio. rewrite D. reflexivity.
Qed.

(** X19.  Both reports print the sealed area of the input under the heading of
    the total area: the result carries no total area, and the line of the
    text report and the first row of the site table of the PDF report show
    the runoff-effective area, as the third row of the table does. *)
Theorem reports_show_sealed_area_as_total_area
    (jetzt : string) (input : DIN1986Input) (projectName : string) :
  let r := assess jetzt input in
  let shown := toFixed (versiegelteFlaeche input) 0 in
  In ("   Grundstücksfläche:        " ++ shown ++ " m² (abflusswirksam)")%string
     (reportLines KinematicWaveResult peakDischarge timeToPeak equilibriumDepth
        toFixed toLocaleDateString r projectName)
  /\ nth_error (siteData KinematicWaveResult toFixed r) 0
     = Some ("Grundstücksfläche (gesamt)"%string, (shown ++ " m²")%string)
  /\ nth_error (siteData KinematicWaveResult toFixed r) 2
     = Some ("Abflusswirksame Fläche"%string, (shown ++ " m²")%string).
Proof.
  intros r shown. split; [|split].
  - unfold reportLines. cbn [In]. do 9 right. left. reflexivity.
  - reflexivity.
  - reflexivity.
Qed.

End ReportProperties.

(** The note on the default site: a ratio of about 1.66. *)
Lemma good_agreement_witness :
  let r := Sample.assess Sample.jetzt Sample.DEFAULT_INPUT in
  let ratio := spitzenabflussPINN r / spitzenabflussRational r in
  ratioVerdict ratio = "gute Übereinstimmung"%string
  /\ (ratio <? 0.3) || (3.0 <? ratio) = false
  /\ nachweisStatus r = byRetention (rueckhaltevolumen r).
Proof.
  split; [reflexivity|].
  pose proof (good_agreement_note_means_no_divergence
                Sample.RUNOFF_impervious Sample.RUNOFF_pervious
                Sample.computePeakRunoff Sample.computeWQv
                Sample.KinematicWaveResult Sample.peakDischarge
                Sample.computeKinematicWaveSolution Sample.numberToString
                Sample.jetzt Sample.DEFAULT_INPUT eq_refl) as [D S].
  split; [exact D | exact (S eq_refl)].
Defined.

(** The note on a site of 100000 m2 with a flow path of 100 m: a ratio of
    about 0.42. *)
Lemma pdf_advises_review_witness :
  let r := Sample.assess Sample.jetzt (Sample.site 100000 80000 100 SU) in
  let ratio := spitzenabflussPINN r / spitzenabflussRational r in
  nachweisErforderlich r = true
  /\ (0.3 <=? ratio) && (ratio <=? 0.5) = true
  /\ ratioVerdict ratio = "Prüfung empfohlen"%string
  /\ nachweisStatus r = byRetention (rueckhaltevolumen r).
Proof.
  split; [reflexivity|]. split; [reflexivity|].
  exact (pdf_advises_review_where_engine_sees_agreement
           Sample.RUNOFF_impervious Sample.RUNOFF_pervious
           Sample.computePeakRunoff Sample.computeWQv
           Sample.KinematicWaveResult Sample.peakDischarge
           Sample.computeKinematicWaveSolution Sample.numberToString
           Sample.jetzt (Sample.site 100000 80000 100 SU) eq_refl eq_refl).
Defined.

(** ** The form as a state machine

    [CoPilotPage] holds the input of the form and the result shown, if any.
    The fields with an input element are edited through [handleChange], the
    button of the form calls [handleCalculate] and the button of the result
    view [handleExportPDF], which saves a file. *)

Inductive Change : Type :=
  | change_projectName (value : string)
  | change_grundstuecksflaeche (value : number)
  | change_versiegelteFlaeche (value : number)
  | change_bodenart (value : Bodenart)
  | change_gelaendeneigung (value : number)
  | change_fliesslaenge (value : number)
  | change_manningN (value : number).

(** [{ ...prev, [field]: value }]. *)
Definition handleChange (c : Change) (prev : DIN1986Input) : DIN1986Input :=
  match c with
  | change_projectName v =>
      {| projectName := v;
         grundstuecksflaeche := grundstuecksflaeche prev;
         versiegelteFlaeche := versiegelteFlaeche prev;
         bodenart := bodenart prev;
         gelaendeneigung := gelaendeneigung prev;
         manningN := manningN prev;
         fliesslaenge := fliesslaenge prev;
         latitude := latitude prev;
         longitude := longitude prev |}
  | change_grundstuecksflaeche v =>
      {| projectName := projectName prev;
         grundstuecksflaeche := v;
         versiegelteFlaeche := versiegelteFlaeche prev;
         bodenart := bodenart prev;
         gelaendeneigung := gelaendeneigung prev;
         manningN := manningN prev;
         fliesslaenge := fliesslaenge prev;
         latitude := latitude prev;
         longitude := longitude prev |}
  | change_versiegelteFlaeche v => set_versiegelteFlaeche v prev
  | change_bodenart v =>
      {| projectName := projectName prev;
         grundstuecksflaeche := grundstuecksflaeche prev;
         versiegelteFlaeche := versiegelteFlaeche prev;
         bodenart := v;
         gelaendeneigung := gelaendeneigung prev;
         manningN := manningN prev;
         fliesslaenge := fliesslaenge prev;
         latitude := latitude prev;
         longitude := longitude prev |}
  | change_gelaendeneigung v => set_gelaendeneigung v prev
  | change_fliesslaenge v =>
      {| projectName := projectName prev;
         grundstuecksflaeche := grundstuecksflaeche prev;
         versiegelteFlaeche := versiegelteFlaeche prev;
         bodenart := bodenart prev;
         gelaendeneigung := gelaendeneigung prev;
         manningN := manningN prev;
         fliesslaenge := v;
         latitude := latitude prev;
         longitude := longitude prev |}
  | change_manningN v =>
      {| projectName := projectName prev;
         grundstuecksflaeche := grundstuecksflaeche prev;
         versiegelteFlaeche := versiegelteFlaeche prev;
         bodenart := bodenart prev;
         gelaendeneigung := gelaendeneigung prev;
         manningN := v;
         fliesslaenge := fliesslaenge prev;
         latitude := latitude prev;
         longitude := longitude prev |}
  end.

(** [a || b] on texts: the empty text is falsy. *)
Definition or_text (a b : string) : string :=
  match a with EmptyString => b | _ => a end.

(** What the user does; the clock reading comes with the two buttons. *)
Inductive Event : Type :=
  | Edit (c : Change)
  | Calculate (jetzt : string)
  | Export (jetzt : string).

Section Page.

Variable RUNOFF_impervious RUNOFF_pervious : number.
Variable computePeakRunoff : number -> number -> number -> number.
Variable computeWQv : number -> number -> number -> number.
Variable KinematicWaveResult : Type.
Variable peakDischarge timeToPeak equilibriumDepth : KinematicWaveResult -> number.
Variable computeKinematicWaveSolution : KW.Params -> KinematicWaveResult.
Variable numberToString : number -> string.
Variable toFixed : number -> nat -> string.
Variable toLocaleDateString : string -> string.
Variable pageWidth : number.
Variable splitTextToSize : PDF.Font -> string -> number -> list string.

(** The state of the component and the files saved so far. *)
Record Page : Type := {
  input : DIN1986Input;
  result : option (DIN1986Result KinematicWaveResult);
  saved : list (string * PDF.Doc)
}.

Definition initial : Page :=
  {| input := Sample.DEFAULT_INPUT; result := None; saved := [] |}.

Definition handleCalculate (jetzt : string) (p : Page) : Page :=
  let assessment :=
    performDIN1986Assessment RUNOFF_impervious RUNOFF_pervious
      computePeakRunoff computeWQv KinematicWaveResult peakDischarge
      computeKinematicWaveSolution numberToString jetzt (input p) in
  {| input := input p; result := Some assessment; saved := saved p |}.

Definition handleExportPDF (jetzt : string) (p : Page) : Page :=
  match result p with
  | None => p
  | Some r =>
      let pdf :=
        generateDIN1986PDF KinematicWaveResult timeToPeak equilibriumDepth toFixed
          toLocaleDateString pageWidth splitTextToSize r
          (or_text (projectName (input p)) "Unbenanntes Projekt") in
      let name :=
        ("Ueberflutungsnachweis_" ++ or_text (projectName (input p)) "Entwurf"
         ++ "_" ++ substring 0 10 jetzt ++ ".pdf")%string in
      {| input := input p; result := result p;
         saved := saved p ++ [(name, pdf)] |}
  end.

Definition step (p : Page) (e : Event) : Page :=
  match e with
  | Edit c => {| input := handleChange c (input p); result := result p;
                 saved := saved p |}
  | Calculate jetzt => handleCalculate jetzt p
  | Export jetzt => handleExportPDF jetzt p
  end.

Definition run (events : list Event) (p : Page) : Page :=
  fold_left step events p.

Definition is_calculate (e : Event) : bool :=
  match e with Calculate _ => true | _ => false end.

Definition is_edit (e : Event) : bool :=
  match e with Edit _ => true | _ => false end.

Lemma run_app (a b : list Event) (p : Page) : run (a ++ b) p = run b (run a p).
Proof. apply fold_left_app. Qed.

Lemma no_result_before_calculation (events : list Event) :
  forall p, result p = None -> forallb (fun e => negb (is_calculate e)) events = true ->
  result (run events p) = None /\ saved (run events p) = saved p.
Proof.
  induction events as [|e rest IH]; intros p N H; [split; [exact N | reflexivity]|].
  cbn [forallb] in H. apply andb_prop in H. destruct H as [He Hr].
  cbn [run fold_left]. fold (run rest (step p e)).
  destruct e as [c|j|j]; try discriminate He.
  - apply (IH (step p (Edit c)) N Hr).
  - assert (S : step p (Export j) = p).
    { unfold step, handleExportPDF. rewrite N. reflexivity. }
    rewrite S. apply (IH _ N Hr).
Qed.

(** X20.  The export button saves nothing until a calculation has been made:
    from the opening state, whatever is edited and however often the export
    is asked for, no file is saved and no result is shown as long as the
    calculate button has not been pressed. *)
Theorem nothing_saved_before_first_calculation (events : list Event) :
  forallb (fun e => negb (is_calculate e)) events = true ->
  result (run events initial) = None /\ saved (run events initial) = [].
Proof.
  intros H. apply (no_result_before_calculation events initial eq_refl H).
Qed.

(** X21.  Editing the form changes neither the result shown nor the files saved,
    so the result stays the assessment of the input as it was when the
    calculate button was last pressed; the flag of the form follows the
    edits at once. *)
Theorem edits_leave_result_stale
    (jetzt : string) (edits : list Event) (p : Page) :
  forallb is_edit edits = true ->
  let q := run (Calculate jetzt :: edits) p in
  result q
  = Some (performDIN1986Assessment RUNOFF_impervious RUNOFF_pervious
            computePeakRunoff computeWQv KinematicWaveResult peakDischarge
            computeKinematicWaveSolution numberToString jetzt (input p))
  /\ saved q = saved p
  /\ input q = fold_left (fun i e => match e with Edit c => handleChange c i | _ => i end)
                 edits (input p).
Proof.
  intros H q. subst q. cbn [run fold_left step].
  set (p1 := handleCalculate jetzt p).
  change (input p) with (input p1) at 2.
  change (saved p) with (saved p1).
  change (Some _) with (result p1).
  clearbody p1. revert p1 H.
  induction edits as [|e rest IH]; intros p1 H; [repeat split|].
  cbn [forallb] in H. apply andb_prop in H. destruct H as [He Hr].
  destruct e as [c|j|j]; try discriminate He.
  cbn [fold_left]. apply (IH (step p1 (Edit c)) Hr).
Qed.

End Page.

(** Stand-ins for the runtime and the PDF library, to run the form and the
    reports on sample sites. *)
Module SampleReport.

(** Modelled from the spec: the time to peak and the equilibrium depth of
    the kinematic-wave result, for which the spec gives no formula; the
    sample solver keeps the peak discharge only and the two read 0. *)
Definition timeToPeak (k : Sample.KinematicWaveResult) : number := 0.
Definition equilibriumDepth (k : Sample.KinematicWaveResult) : number := 0.

(** A stand-in for [toFixed]: whole numbers in decimal, without digits
    after the point. *)
Definition toFixed (x : number) (digits : nat) : string := Sample.numberToString x.

(** A stand-in for the date in the de-DE locale: day, month and year of
    the ISO time stamp. *)
Definition toLocaleDateString (iso : string) : string :=
  (substring 8 2 iso ++ "." ++ substring 5 2 iso ++ "." ++ substring 0 4 iso)%string.

(** A stand-in for the page width, 210 mm, and for [splitTextToSize]
    without any wrapping. *)
Definition pageWidth : number := 210.
Definition splitTextToSize (font : PDF.Font) (s : string) (width : number)
    : list string := [s].

Definition run : list Event -> Page Sample.KinematicWaveResult
                 -> Page Sample.KinematicWaveResult :=
  run Sample.RUNOFF_impervious Sample.RUNOFF_pervious
    Sample.computePeakRunoff Sample.computeWQv
    Sample.KinematicWaveResult Sample.peakDischarge timeToPeak equilibriumDepth
    Sample.computeKinematicWaveSolution Sample.numberToString
    toFixed toLocaleDateString pageWidth splitTextToSize.

End SampleReport.

(** Editing and asking for the export without a calculation. *)
Lemma nothing_saved_witness :
  let events := [ Edit (change_versiegelteFlaeche 600);
                  Export Sample.jetzt;
                  Edit (change_bodenart TM);
                  Export Sample.jetzt ] in
  forallb (fun e => negb (is_calculate e)) events = true
  /\ result Sample.KinematicWaveResult
       (SampleReport.run events (initial Sample.KinematicWaveResult)) = None
  /\ saved Sample.KinematicWaveResult
       (SampleReport.run events (initial Sample.KinematicWaveResult)) = [].
Proof.
  split; [reflexivity|].
  exact (nothing_saved_before_first_calculation
           Sample.RUNOFF_impervious Sample.RUNOFF_pervious
           Sample.computePeakRunoff Sample.computeWQv
           Sample.KinematicWaveResult Sample.peakDischarge
           SampleReport.timeToPeak SampleReport.equilibriumDepth
           Sample.computeKinematicWaveSolution Sample.numberToString
           SampleReport.toFixed SampleReport.toLocaleDateString
           SampleReport.pageWidth SampleReport.splitTextToSize
           [ Edit (change_versiegelteFlaeche 600);
             Export Sample.jetzt;
             Edit (change_bodenart TM);
             Export Sample.jetzt ] eq_refl).
Defined.

(** A calculation on the default site, then the sealed area is set to
    600 m2: the result shown still asks for the verification, the flag of
    the form no longer does. *)
Lemma stale_result_witness :
  let edits := [ Edit (change_versiegelteFlaeche 600) ] in
  let q := SampleReport.run (Calculate Sample.jetzt :: edits)
             (initial Sample.KinematicWaveResult) in
  forallb is_edit edits = true
  /\ result Sample.KinematicWaveResult q
     = Some (Sample.assess Sample.jetzt Sample.DEFAULT_INPUT)
  /\ nachweisErforderlich (Sample.assess Sample.jetzt Sample.DEFAULT_INPUT) = true
  /\ CoPilotPage_nachweisErforderlich (input Sample.KinematicWaveResult q) = false.
Proof.
  split; [reflexivity|].
  split; [|split; reflexivity].
  exact (proj1 (edits_leave_result_stale
                  Sample.RUNOFF_impervious Sample.RUNOFF_pervious
                  Sample.computePeakRunoff Sample.computeWQv
                  Sample.KinematicWaveResult Sample.peakDischarge
                  SampleReport.timeToPeak SampleReport.equilibriumDepth
                  Sample.computeKinematicWaveSolution Sample.numberToString
                  SampleReport.toFixed SampleReport.toLocaleDateString
                  SampleReport.pageWidth SampleReport.splitTextToSize
                  Sample.jetzt [ Edit (change_versiegelteFlaeche 600) ]
                  (initial Sample.KinematicWaveResult) eq_refl)).
Defined.

(** ** The rainfall table *)

(** X22.  Every entry of the table sits under one of six return periods
    and is a number, and a longer return period has the higher intensity. *)
Theorem kostra_entries_increase (k1 k2 : Z) (v1 v2 : number) :
  lookup k1 BERLIN_KOSTRA = Some v1 ->
  lookup k2 BERLIN_KOSTRA = Some v2 ->
  (In k1 [2; 5; 10; 30; 50; 100]%Z
   /\ BERLIN_KOSTRA_at k1 = v1
   /\ is_nan v1 = false)
  /\ ((k1 < k2)%Z -> (v1 <? v2) = true).
Proof.
  unfold BERLIN_KOSTRA_at. intros H1 H2. rewrite H1.
  unfold BERLIN_KOSTRA in H1, H2. cbn [lookup] in H1, H2.
  repeat match type of H1 with
         | (if (?a =? k1)%Z then _ else _) = _ =>
             destruct (Z.eqb_spec a k1); [injection H1 as <-|]
         end;
    try discriminate H1;
    (split; [split; [cbn [In]; lia | split; reflexivity]|]);
    repeat match type of H2 with
           | (if (?a =? k2)%Z then _ else _) = _ =>
               destruct (Z.eqb_spec a k2); [injection H2 as <-|]
           end;
    try discriminate H2; intros L; try lia; reflexivity.
Qed.

(** X23.  A key that is no return period of the table reads NaN. *)
Theorem kostra_missing_key_reads_nan (k : Z) :
  ~ In k [2; 5; 10; 30; 50; 100]%Z ->
  lookup k BERLIN_KOSTRA = None /\ is_nan (BERLIN_KOSTRA_at k) = true.
Proof.
  intros H. cbn [In] in H.
  assert (N : lookup k BERLIN_KOSTRA = None).
  { unfold BERLIN_KOSTRA. cbn [lookup].
    repeat match goal with
           | |- (if (?a =? k)%Z then _ else _) = _ =>
               destruct (Z.eqb_spec a k); [exfalso; tauto|]
           end.
    reflexivity. }
  split; [exact N|]. unfold BERLIN_KOSTRA_at. rewrite N. reflexivity.
Qed.

Lemma kostra_entries_witness :
  lookup 30 BERLIN_KOSTRA = Some 175
  /\ lookup 100 BERLIN_KOSTRA = Some 220
  /\ (30 < 100)%Z
  /\ (175 <? 220) = true.
Proof.
  split; [reflexivity|]. split; [reflexivity|]. split; [reflexivity|].
  exact (proj2 (kostra_entries_increase 30 100 175 220 eq_refl eq_refl) eq_refl).
Defined.

Lemma kostra_missing_key_witness :
  ~ In 20%Z [2; 5; 10; 30; 50; 100]%Z
  /\ lookup 20 BERLIN_KOSTRA = None
  /\ is_nan (BERLIN_KOSTRA_at 20) = true.
Proof.
  assert (H : ~ In 20%Z [2; 5; 10; 30; 50; 100]%Z)
    by (cbn [In]; intros K; decompose [or] K; try discriminate; assumption).
  split; [exact H|].
  exact (kostra_missing_key_reads_nan 20 H).
Defined.

(** A sealed fraction of 0.9: the first two recommendations. *)
Lemma high_sealing_advisory_witness :
  In rec_hoch (generateRecommendations Sample.DEFAULT_INPUT 0.9 BESTANDEN)
  /\ exists rest,
       generateRecommendations Sample.DEFAULT_INPUT 0.9 BESTANDEN
       = rec_hoch :: rec_T100 :: rest.
Proof.
  assert (H : In rec_hoch (generateRecommendations Sample.DEFAULT_INPUT 0.9 BESTANDEN))
    by (left; reflexivity).
  split; [exact H|].
  exact (Recommendations.high_sealing_advisory_is_followed_by_storm_advisory
           Sample.DEFAULT_INPUT 0.9 BESTANDEN H).
Defined.

(** ** The arguments of the kinematic-wave solver at the edges *)

Module Solver.

Lemma Prim2SF_nan_is_nan (x : number) : Prim2SF x = S754_nan -> is_nan x = true.
Proof.
  intros H. unfold is_nan. rewrite FloatAxioms.eqb_spec, H. reflexivity.
Qed.

Lemma nan_div (x y : number) : is_nan x = true -> is_nan (x / y) = true.
Proof.
  intros H. apply Order.is_nan_true in H. apply Prim2SF_nan_is_nan.
  rewrite FloatAxioms.div_spec, H. reflexivity.
Qed.

Lemma sqrt_negative (x : number) : (x <? 0) = true -> is_nan (sqrt x) = true.
Proof.
  intros H. apply Prim2SF_nan_is_nan. rewrite FloatAxioms.sqrt_spec.
  rewrite FloatAxioms.ltb_spec in H. unfold SFltb in H.
  change (Prim2SF 0) with (S754_zero false) in H.
  destruct (Prim2SF x) as [s|s| |s m e]; try destruct s; try discriminate H;
    reflexivity.
Qed.

(** X24.  What the solver is handed for inputs outside the expected range:
    every slope whose hundredth is below 0.001, negative slopes included,
    becomes exactly 0.001; a slope that is NaN is not clamped and arrives
    as NaN; a negative total area gives a width of NaN. *)
Theorem solver_arguments_at_the_edges (input : DIN1986Input) (regenspende : number) :
  let p := kinematicWaveParams input regenspende in
  ((gelaendeneigung input / 100 <? 0.001) = true -> KW.slope p = 0.001)
  /\ (is_nan (gelaendeneigung input) = true -> is_nan (KW.slope p) = true)
  /\ ((grundstuecksflaeche input <? 0) = true -> is_nan (KW.width p) = true).
Proof.
  intros p. subst p. unfold kinematicWaveParams. cbn [KW.slope KW.width].
  split; [|split].
  - intros H. unfold JS.Math_max.
    destruct (Order.ltb_not_nan _ _ H) as [N _]. rewrite N, H. reflexivity.
  - intros H. unfold JS.Math_max. rewrite (nan_div _ 100 H). reflexivity.
  - intros H. unfold JS.Math_sqrt. apply sqrt_negative. exact H.
Qed.

End Solver.

(** A slope of -3 percent, a slope of 0 over 0 and a total area of -100. *)
Lemma solver_arguments_witness :
  KW.slope (kinematicWaveParams (set_gelaendeneigung (-3) Sample.DEFAULT_INPUT) 220)
  = 0.001
  /\ is_nan (KW.slope (kinematicWaveParams
                        (set_gelaendeneigung (0 / 0) Sample.DEFAULT_INPUT) 220)) = true
  /\ is_nan (KW.width (kinematicWaveParams (Sample.site (-100) 50 50 SU) 220)) = true.
Proof.
  split; [|split].
  - exact (proj1 (Solver.solver_arguments_at_the_edges
                    (set_gelaendeneigung (-3) Sample.DEFAULT_INPUT) 220) eq_refl).
  - exact (proj1 (proj2 (Solver.solver_arguments_at_the_edges
                    (set_gelaendeneigung (0 / 0) Sample.DEFAULT_INPUT) 220)) eq_refl).
  - exact (proj2 (proj2 (Solver.solver_arguments_at_the_edges
                    (Sample.site (-100) 50 50 SU) 220)) eq_refl).
Defined.
